(** * go-bsv-middleware: the authentication transport, its key deriver and
      its HTTP adapter, embedded in Rocq.

    The development follows the Go sources:
    - [wallet.KeyDeriver] (normalizeCounterparty, computeInvoiceNumber,
      DerivePublicKey, DerivePrivateKey),
    - [httptransport.Transport] (the handshake / certificate / general-request
      state machine, response signing, header checks),
    - [auth.Middleware.Handler] and its [ResponseRecorder],
    - the certificates callback of examples/auth/certificates.

    Go strings are byte strings and are modelled by [string]; [[]byte] is
    [list byte]; Go [int] values are [Z].  Pointers that the code tests
    against [nil] are [option]s.  Collaborators that live outside the
    repository (the secp256k1 library, [encoding/json], the wallet behind
    [WalletInterface], Unicode-aware [strings.ToLower] / [strings.TrimSpace])
    are interfaces: type classes whose methods the code calls. *)

From Stdlib Require Import ZArith Lia Bool List.
From Stdlib.Strings Require Import Ascii String Byte.
From Stdlib Require Import DecimalString.
From stdpp Require Import base option list strings gmap.

Open Scope string_scope.
Open Scope list_scope.
Open Scope Z_scope.

(** ** Results of fallible Go functions

    A Go function returning [(T, error)] returns [Ok v] or [Err msg]; a nil
    pointer dereference is a run-time panic, which is not an [error] value and
    is not caught by [if err != nil]. *)

Inductive result (A : Type) : Type :=
| Ok (a : A)
| Err (msg : string)
| Panic (msg : string).
Arguments Ok {A} a.
Arguments Err {A} msg.
Arguments Panic {A} msg.

Definition is_Ok {A} (r : result A) : bool :=
  match r with Ok _ => true | _ => false end.

Definition is_Err {A} (r : result A) : bool :=
  match r with Err _ => true | _ => false end.

(** ** Helpers of Go's [strings] package on byte strings *)

Module GoStrings.

(** [len(s)] *)
Definition len (s : string) : Z := Z.of_nat (String.length s).

(** [strings.HasPrefix(s, p)] *)
Definition HasPrefix (s p : string) : bool := String.prefix p s.

(** [strings.Contains(s, sub)]: [sub] occurs at some offset of [s]. *)
Fixpoint Contains (s sub : string) : bool :=
  String.prefix sub s ||
  match s with
  | EmptyString => false
  | String _ s' => Contains s' sub
  end.

(** [strings.HasSuffix(s, suf)]: the last [len(suf)] bytes of [s] are [suf]. *)
Fixpoint HasSuffix (s suf : string) : bool :=
  (if String.eqb s suf then true else false) ||
  match s with
  | EmptyString => false
  | String _ s' => HasSuffix s' suf
  end.

(** The double-quote character, for messages that embed one. *)
Definition dquote : string := String (ascii_of_nat 34) EmptyString.

(** [fmt.Sprintf("%d", n)] *)
Definition itoa (n : Z) : string := NilZero.string_of_int (Z.to_int n).

End GoStrings.

(** [strings.ToLower] and [strings.TrimSpace] work on Unicode code points
    (case tables, the White_Space property); the deriver only composes them,
    so they are an interface. *)
Class UnicodeStrings := {
  ToLower : string -> string;
  TrimSpace : string -> string;
}.

(** ** The secp256k1 library ([ec] in the sources) *)

Class EC := {
  ecPrivateKey : Type;
  ecPublicKey : Type;
  ecSignature : Type;
  (** [PrivateKey.PubKey()] *)
  PubKey : ecPrivateKey -> ecPublicKey;
  (** [ec.PrivateKeyFromBytes(b)] *)
  PrivateKeyFromBytes : list byte -> ecPrivateKey * ecPublicKey;
  (** [ec.PublicKeyFromString(hex)] *)
  PublicKeyFromString : string -> result ecPublicKey;
  (** [PublicKey.ToDERHex()] *)
  ToDERHex : ecPublicKey -> string;
  (** [ec.ParseSignature(der)] *)
  ParseSignature : list byte -> result ecSignature;
  (** [Signature.Serialize()] *)
  Serialize : ecSignature -> list byte;
}.

(** ** wallet/types.go *)

Module Wallet.

(** [type SecurityLevel int] *)
Definition SecurityLevelSilent : Z := 0.
Definition SecurityLevelEveryApp : Z := 1.
Definition SecurityLevelEveryAppAndCounterparty : Z := 2.

Record Protocol := {
  SecurityLevel : Z;
  ProtocolName : string;   (* field [Protocol] of the Go struct *)
}.

Definition DefaultAuthProtocol : Protocol :=
  {| SecurityLevel := SecurityLevelEveryAppAndCounterparty;
     ProtocolName := "auth message signature" |}.

(** [type CounterpartyType int] *)
Definition CounterpartyUninitialized : Z := 0.
Definition CounterpartyTypeAnyone : Z := 1.
Definition CounterpartyTypeSelf : Z := 2.
Definition CounterpartyTypeOther : Z := 3.

(** [regexOnlyLettersNumbersSpaces = regexp.MustCompile(`^[a-z0-9 ]+$`)]:
    [MatchString] holds of the non-empty strings all of whose bytes are in
    the class (Go's [$] without the [m] flag is the end of the text). *)
Definition inClass_az09sp (c : ascii) : bool :=
  let n := Z.of_nat (nat_of_ascii c) in
  (Z.leb 97 n && Z.leb n 122) || (Z.leb 48 n && Z.leb n 57) || Z.eqb n 32.

Definition regexOnlyLettersNumbersSpaces_MatchString (s : string) : bool :=
  match s with
  | EmptyString => false
  | _ => forallb inClass_az09sp (list_ascii_of_string s)
  end.

(** [Certificate]; a field value of dynamic type ([any]) is held as its
    JSON text. *)
Record Certificate := {
  Type_ : string;
  Subject : string;
  SerialNumber : string;
  Certifier : string;
  RevocationOutpoint : string;
  Fields : gmap string string;
  CertSignature : string;             (* field [Signature] *)
}.

Record VerifiableCertificate := {
  Certificate_ : Certificate;         (* the embedded [Certificate] *)
  Keyring : gmap string string;
  DecryptedFields : option (gmap string string);
}.

Section WithEC.
Context `{EC}.

Record Counterparty := {
  CounterpartyType : Z;                   (* field [Type] *)
  CounterpartyKey : option ecPublicKey;   (* field [Counterparty], a pointer *)
}.

Record EncryptionArgs := {
  ProtocolID : Protocol;
  KeyID : string;
  Counterparty_ : Counterparty;           (* field [Counterparty] *)
  Privileged : bool;
  PrivilegedReason : string;
  SeekPermission : bool;
}.

(** The zero value of [EncryptionArgs]. *)
Definition zeroEncryptionArgs : EncryptionArgs :=
  {| ProtocolID := {| SecurityLevel := 0; ProtocolName := "" |};
     KeyID := "";
     Counterparty_ := {| CounterpartyType := 0; CounterpartyKey := None |};
     Privileged := false; PrivilegedReason := ""; SeekPermission := false |}.

Record GetPublicKeyArgs := {
  gpEncryptionArgs : EncryptionArgs;      (* the embedded [EncryptionArgs] *)
  IdentityKey : bool;
  ForSelf : bool;
}.

Record GetPublicKeyResult := { PublicKey : ecPublicKey }.

Record CreateSignatureArgs := {
  csEncryptionArgs : EncryptionArgs;      (* the embedded [EncryptionArgs] *)
  csData : list byte;                     (* field [Data] *)
  DashToDirectlySign : list byte;
}.

Record CreateSignatureResult := { Signature : ecSignature }.

Record VerifySignatureArgs := {
  vsEncryptionArgs : EncryptionArgs;      (* the embedded [EncryptionArgs] *)
  vsData : list byte;                     (* field [Data] *)
  HashToDirectlyVerify : list byte;
  vsSignature : ecSignature;              (* field [Signature] *)
  vsForSelf : bool;                       (* field [ForSelf] *)
}.

Record VerifySignatureResult := { Valid : bool }.

(** [WalletInterface], as far as the transport calls it.  The wallet
    is stateful (it remembers the nonces it issued): every method takes
    the wallet's state and returns the new one.  The [context.Context]
    and originator arguments carry nothing the transport sets. *)
Class WalletInterface := {
  WalletState : Type;
  CreateNonce : WalletState -> result string * WalletState;
  VerifyNonce : string -> WalletState -> result bool * WalletState;
  GetPublicKey :
    GetPublicKeyArgs -> WalletState -> result GetPublicKeyResult * WalletState;
  CreateSignature :
    CreateSignatureArgs -> WalletState -> result CreateSignatureResult * WalletState;
  VerifySignature :
    VerifySignatureArgs -> WalletState -> result VerifySignatureResult * WalletState;
}.

End WithEC.

End Wallet.

(** ** The key deriver (wallet/key_deriver.go) *)

Module KeyDeriver.
Import Wallet GoStrings.

Section WithLibraries.
Context `{EC} `{UnicodeStrings}.

Record KeyDeriver := { rootKey : ecPrivateKey }.

(** [AnyoneKey()] *)
Definition AnyoneKey : ecPrivateKey * ecPublicKey :=
  PrivateKeyFromBytes [x01].

(** [NewKeyDeriver(privateKey)] *)
Definition NewKeyDeriver (privateKey : option ecPrivateKey) : KeyDeriver :=
  match privateKey with
  | None => {| rootKey := fst AnyoneKey |}
  | Some k => {| rootKey := k |}
  end.

Definition normalizeCounterparty (kd : KeyDeriver) (counterparty : Counterparty)
  : result ecPublicKey :=
  let t := CounterpartyType counterparty in
  if t =? CounterpartyTypeSelf then Ok (PubKey (rootKey kd))
  else if t =? CounterpartyTypeOther then
    match CounterpartyKey counterparty with
    | None => Err "counterparty public key required for other"
    | Some k => Ok k
    end
  else if t =? CounterpartyTypeAnyone then Ok (snd AnyoneKey)
  else if t =? CounterpartyUninitialized then Err "counterparty type uninitialized"
  else Err "invalid counterparty, must be self, other, or anyone".

Definition computeInvoiceNumber (kd : KeyDeriver) (protocol : Protocol) (keyID : string)
  : result string :=
  if (SecurityLevel protocol <? 0) || (SecurityLevel protocol >? 2) then
    Err "protocol security level must be 0, 1, or 2"
  else if len keyID >? 800 then
    Err "key IDs must be 800 characters or less"
  else if len keyID <? 1 then
    Err "key IDs must be 1 character or more"
  else
    let protocolName := ToLower (TrimSpace (ProtocolName protocol)) in
    (* the checks that follow the length-400 block *)
    let rest :=
      if len protocolName <? 5 then
        Err "protocol names must be 5 characters or more"
      else if Contains protocolName "  " then
        Err ("protocol names cannot contain multiple consecutive spaces (" +:+ dquote +:+ "  " +:+ dquote +:+ ")")
      else if negb (regexOnlyLettersNumbersSpaces_MatchString protocolName) then
        Err "protocol names can only contain letters, numbers and spaces"
      else if HasSuffix protocolName " protocol" then
        Err ("no need to end your protocol name with " +:+ dquote +:+ " protocol" +:+ dquote)
      else
        Ok (itoa (SecurityLevel protocol) +:+ "-" +:+ protocolName +:+ "-" +:+ keyID)
    in
    if len protocolName >? 400 then
      if HasPrefix protocolName "specific linkage revelation " then
        if len protocolName >? 430 then
          Err "specific linkage revelation protocol names must be 430 characters or less"
        else rest
      else
        Err "protocol names must be 400 characters or less"
    else rest.

End WithLibraries.
End KeyDeriver.

(** ** Byte-level codecs: [encoding/hex], [encoding/base64], varints *)

Module Encoding.

Definition byte_of_Z (z : Z) : byte :=
  match Byte.of_N (Z.to_N (z mod 256)) with
  | Some b => b
  | None => x00
  end.

Definition Z_of_byte (b : byte) : Z := Z.of_N (Byte.to_N b).

Definition code (c : ascii) : Z := Z.of_nat (nat_of_ascii c).

Definition between (lo hi : string) (c : ascii) : bool :=
  match lo, hi with
  | String l _, String h _ => Z.leb (code l) (code c) && Z.leb (code c) (code h)
  | _, _ => false
  end.

(** *** encoding/hex *)

Definition fromHexChar (c : ascii) : option Z :=
  if between "0" "9" c then Some (code c - 48)
  else if between "a" "f" c then Some (code c - 97 + 10)
  else if between "A" "F" c then Some (code c - 65 + 10)
  else None.

(** [hex.DecodeString(s)]: [None] is the error (odd length or a byte that
    is no hex digit). *)
Fixpoint hex_DecodeString (s : string) : option (list byte) :=
  match s with
  | EmptyString => Some []
  | String _ EmptyString => None
  | String a (String b rest) =>
      match fromHexChar a, fromHexChar b with
      | Some x, Some y =>
          match hex_DecodeString rest with
          | Some r => Some (byte_of_Z (16 * x + y) :: r)
          | None => None
          end
      | _, _ => None
      end
  end.

Definition hexDigit (n : Z) : ascii :=
  if n <? 10 then ascii_of_nat (Z.to_nat (48 + n))
  else ascii_of_nat (Z.to_nat (97 + n - 10)).

(** [hex.EncodeToString(b)] *)
Fixpoint hex_EncodeToString (b : list byte) : string :=
  match b with
  | [] => EmptyString
  | x :: r =>
      String (hexDigit (Z_of_byte x / 16))
        (String (hexDigit (Z_of_byte x mod 16)) (hex_EncodeToString r))
  end.

(** *** encoding/base64, [StdEncoding] (padded, not strict) *)

Definition b64val (c : ascii) : option Z :=
  if between "A" "Z" c then Some (code c - 65)
  else if between "a" "z" c then Some (code c - 97 + 26)
  else if between "0" "9" c then Some (code c - 48 + 52)
  else if code c =? 43 then Some 62
  else if code c =? 47 then Some 63
  else None.

Definition is_pad (c : ascii) : bool := code c =? 61.
Definition is_newline (c : ascii) : bool := (code c =? 10) || (code c =? 13).

(** The decoder works in quanta of four characters.  It returns the bytes
    decoded before the first error together with [true] when there was no
    error, as [DecodeString] returns [dbuf[:n], err]. *)
Fixpoint decodeQuanta (l : list ascii) : list byte * bool :=
  match l with
  | [] => ([], true)
  | a :: b :: c :: d :: rest =>
      match b64val a, b64val b with
      | Some x, Some y =>
          if is_pad c then
            if is_pad d
            then ([byte_of_Z (x * 4 + y / 16)],
                  match rest with [] => true | _ => false end)
            else ([], false)
          else
            match b64val c with
            | Some z =>
                if is_pad d
                then ([byte_of_Z (x * 4 + y / 16); byte_of_Z (y * 16 + z / 4)],
                      match rest with [] => true | _ => false end)
                else
                  match b64val d with
                  | Some w =>
                      let '(r, ok) := decodeQuanta rest in
                      (byte_of_Z (x * 4 + y / 16)
                         :: byte_of_Z (y * 16 + z / 4)
                         :: byte_of_Z (z * 64 + w) :: r, ok)
                  | None => ([], false)
                  end
            | None => ([], false)
            end
      | _, _ => ([], false)
      end
  | _ => ([], false)
  end.

(** [base64.StdEncoding.DecodeString(s)]; carriage returns and line feeds
    are skipped wherever they occur. *)
Definition base64_DecodeString (s : string) : list byte * bool :=
  decodeQuanta (List.filter (fun c => negb (is_newline c)) (list_ascii_of_string s)).

Definition b64char (n : Z) : ascii :=
  if n <? 26 then ascii_of_nat (Z.to_nat (65 + n))
  else if n <? 52 then ascii_of_nat (Z.to_nat (97 + n - 26))
  else if n <? 62 then ascii_of_nat (Z.to_nat (48 + n - 52))
  else if n =? 62 then ascii_of_nat 43
  else ascii_of_nat 47.

(** [base64.StdEncoding.EncodeToString(b)] *)
Fixpoint base64_EncodeToString (b : list byte) : string :=
  match b with
  | [] => EmptyString
  | [x] =>
      let x := Z_of_byte x in
      String (b64char (x / 4)) (String (b64char (x mod 4 * 16)) "==")
  | [x; y] =>
      let x := Z_of_byte x in
      let y := Z_of_byte y in
      String (b64char (x / 4))
        (String (b64char (x mod 4 * 16 + y / 16))
           (String (b64char (y mod 16 * 4)) "="))
  | x :: y :: z :: r =>
      let x := Z_of_byte x in
      let y := Z_of_byte y in
      let z := Z_of_byte z in
      String (b64char (x / 4))
        (String (b64char (x mod 4 * 16 + y / 16))
           (String (b64char (y mod 16 * 4 + z / 64))
              (String (b64char (z mod 64)) (base64_EncodeToString r))))
  end.

(** *** Varints ([utils.WriteVarIntNum]) *)

(** [n] bytes of [v], least significant first. *)
Fixpoint littleEndian (n : nat) (v : Z) : list byte :=
  match n with
  | O => []
  | S n' => byte_of_Z v :: littleEndian n' (v / 256)
  end.

(** Modelled from the spec: [utils.WriteVarIntNum] is not among the
    sources.  The spec, section 4.4: "Varint encoding is little-endian,
    compact: 1 byte for < 0xFD; 0xFD + u16 for < 2^16; 0xFE + u32 for
    < 2^32; 0xFF + i64 for larger or for the sentinel -1 (which is encoded
    as a signed 64-bit value)".  The Go function returns an [error]; the
    spec names no failure, so the model always returns [Ok]. *)
Definition WriteVarIntNum (num : Z) : result (list byte) :=
  if (0 <=? num) && (num <? 253) then Ok [byte_of_Z num]
  else if (0 <=? num) && (num <? 2 ^ 16) then Ok (xfd :: littleEndian 2 num)
  else if (0 <=? num) && (num <? 2 ^ 32) then Ok (xfe :: littleEndian 4 num)
  else Ok (xff :: littleEndian 8 (num mod 2 ^ 64)).

(** The bytes [WriteVarIntNum] writes for [n]. *)
Definition varint (n : Z) : list byte :=
match WriteVarIntNum n with Ok b => b | _ => [] end.

End Encoding.

(** ** net/http, as far as the middleware uses it *)

Module HTTP.
Import Encoding.

Definition lowerAscii (c : ascii) : ascii :=
  if between "A" "Z" c then ascii_of_nat (nat_of_ascii c + 32) else c.

Fixpoint lower (s : string) : string :=
  match s with
  | EmptyString => EmptyString
  | String c r => String (lowerAscii c) (lower r)
  end.

(** [http.Header].  Header names are case-insensitive ([Get], [Set] and
    [Del] canonicalise the name); the map is keyed by the lowercase name
    and holds the value [Get] returns, the first one. *)
Abbreviation Header := (gmap string string).

Definition Get (h : Header) (key : string) : string := default "" (h !! lower key).
Definition Set_ (h : Header) (key value : string) : Header := <[lower key := value]> h.
Definition Del (h : Header) (key : string) : Header := delete (lower key) h.

Definition MethodPost : string := "POST".
Definition StatusOK : Z := 200.
Definition StatusBadRequest : Z := 400.
Definition StatusUnauthorized : Z := 401.
Definition StatusInternalServerError : Z := 500.

(** [*http.Request]; the two context values are the ones [setupContext]
    stores under [transport.IdentityKey] and [transport.RequestID]. *)
Record Request := {
  Method : string;
  URLPath : string;
  ReqHeader : Header;
  ReqBody : list byte;
  ctxIdentityKey : option string;
  ctxRequestID : option string;
}.

(** The server's own [http.ResponseWriter]: the header map, the status
    line once it is written, and the body bytes sent so far. *)
Record ResponseWriter := {
  header : Header;
  status : option Z;
  sent : list byte;
}.

Definition newResponseWriter : ResponseWriter :=
  {| header := ∅; status := None; sent := [] |}.

(** Only the first [WriteHeader] reaches the client. *)
Definition rwWriteHeader (codeZ : Z) (w : ResponseWriter) : ResponseWriter :=
  match status w with
  | None => {| header := header w; status := Some codeZ; sent := sent w |}
  | Some _ => w
  end.

(** [Write] sends the status line with 200 first if none was written. *)
Definition rwWrite (b : list byte) (w : ResponseWriter) : ResponseWriter :=
  let w' := rwWriteHeader StatusOK w in
  {| header := header w'; status := status w'; sent := sent w' ++ b |}.

Definition rwSetHeader (key value : string) (w : ResponseWriter) : ResponseWriter :=
  {| header := Set_ (header w) key value; status := status w; sent := sent w |}.

Definition rwDelHeader (key : string) (w : ResponseWriter) : ResponseWriter :=
  {| header := Del (header w) key; status := status w; sent := sent w |}.

End HTTP.

(** ** The middleware's response recorder (middleware/auth) *)

Module Recorder.
Import HTTP.

Record ResponseRecorder := {
  ResponseWriter_ : ResponseWriter;    (* the embedded [http.ResponseWriter] *)
  statusCode : Z;
  body : list byte;
}.

(** [func (r *ResponseRecorder) WriteHeader(code int)] *)
Definition WriteHeader (codeZ : Z) (r : ResponseRecorder) : ResponseRecorder :=
  {| ResponseWriter_ := rwWriteHeader codeZ (ResponseWriter_ r);
     statusCode := codeZ;
     body := body r |}.

(** [func (r *ResponseRecorder) Write(b []byte) (int, error)]: the
    recorder keeps [b]; the returned pair is always [(len(b), nil)]. *)
Definition Write (b : list byte) (r : ResponseRecorder) : ResponseRecorder :=
  {| ResponseWriter_ := ResponseWriter_ r;
     statusCode := statusCode r;
     body := b |}.

(** [Header()] is promoted from the embedded writer. *)
Definition SetHeader (key value : string) (r : ResponseRecorder) : ResponseRecorder :=
  {| ResponseWriter_ := rwSetHeader key value (ResponseWriter_ r);
     statusCode := statusCode r;
     body := body r |}.

Definition DelHeader (key : string) (r : ResponseRecorder) : ResponseRecorder :=
  {| ResponseWriter_ := rwDelHeader key (ResponseWriter_ r);
     statusCode := statusCode r;
     body := body r |}.

(** [recorder.ResponseWriter.Write(b)]: a write on the embedded writer. *)
Definition flush (b : list byte) (r : ResponseRecorder) : ResponseRecorder :=
  {| ResponseWriter_ := rwWrite b (ResponseWriter_ r);
     statusCode := statusCode r;
     body := body r |}.

(** [http.Error(w, msg, code)] with the recorder as [w]. *)
Definition httpError (msg : string) (codeZ : Z) (r : ResponseRecorder) : ResponseRecorder :=
  let r := DelHeader "Content-Length" r in
  let r := SetHeader "Content-Type" "text/plain; charset=utf-8" r in
  let r := SetHeader "X-Content-Type-Options" "nosniff" r in
  let r := WriteHeader codeZ r in
  Write (list_byte_of_string (msg +:+ String (ascii_of_nat 10) EmptyString)) r.

(** What a handler or a callback does to the response writer it is
    given: a sequence of calls of the [http.ResponseWriter] interface. *)
Inductive WriterOp :=
| OpSetHeader (key value : string)
| OpWriteHeader (codeZ : Z)
| OpWrite (b : list byte).

Definition applyOp (op : WriterOp) (r : ResponseRecorder) : ResponseRecorder :=
  match op with
  | OpSetHeader k v => SetHeader k v r
  | OpWriteHeader c => WriteHeader c r
  | OpWrite b => Write b r
  end.

Definition applyOps (ops : list WriterOp) (r : ResponseRecorder) : ResponseRecorder :=
  fold_left (fun acc op => applyOp op acc) ops r.

End Recorder.

(** ** Package [transport]: the message envelope *)

Module TransportTypes.

Record RequestedCertificateSet := {
  Certifiers : list string;
  Types : gmap string (list string);
}.

(** The zero value of [RequestedCertificateSet]. *)
Definition zeroRequestedCertificateSet : RequestedCertificateSet :=
  {| Certifiers := []; Types := ∅ |}.

(** Modelled from the spec: the declaration of [transport.AuthMessage] is
    not among the sources.  The fields are those of the spec's section 3
    with the types their uses in transport.go fix: [Version],
    [IdentityKey] and [InitialNonce] are strings, [MessageType] is a string
    type, [Nonce], [YourNonce], [Signature], [Payload] and [Certificates]
    are pointers, [RequestedCertificates] is a struct value. *)
Record AuthMessage := {
  Version : string;
  MessageType : string;
  IdentityKey : string;
  InitialNonce : string;
  Nonce : option string;
  YourNonce : option string;
  Signature : option (list byte);
  Payload : option (list byte);
  RequestedCertificates : RequestedCertificateSet;
  Certificates : option (list Wallet.VerifiableCertificate);
}.

(** Modelled from the spec: [transport.AuthVersion] is not among the
    sources; section 3 has "version (string, currently "0.1"; any other
    value is a fatal error)", and the test fixtures send "0.1". *)
Definition AuthVersion : string := "0.1".

(** Modelled from the spec: the [transport.MessageType] constants are not
    among the sources; section 3 lists the five message types. *)
Definition InitialRequest : string := "initialRequest".
Definition InitialResponse : string := "initialResponse".
Definition CertificateRequest : string := "certificateRequest".
Definition CertificateResponse : string := "certificateResponse".
Definition General : string := "general".

End TransportTypes.

(** ** Package [sessionmanager] *)

Module SessionManager.

(** Modelled from the spec: [sessionmanager.PeerSession] is not among the
    sources.  Section 3 lists the fields; transport.go takes the address
    of a string for [SessionNonce], [PeerNonce] and [PeerIdentityKey] and
    tests them against nil. *)
Record PeerSession := {
  IsAuthenticated : bool;
  SessionNonce : option string;
  PeerNonce : option string;
  PeerIdentityKey : option string;
  LastUpdate : Z;
}.

(** Modelled from the spec: the session manager is not among the
    sources.  Section 4.3: "add(session): inserts under both
    peerIdentityKey and sessionNonce indices.  get(key): lookup accepts
    either index key; returns None if absent.  update(session): atomically
    replaces existing record, preserving both index entries.
    remove(identityKey): removes from both indices." *)
Record SessionManager := {
  sessionNonceToSession : gmap string PeerSession;
  identityKeyToSession : gmap string PeerSession;
}.

Definition NewSessionManager : SessionManager :=
  {| sessionNonceToSession := ∅; identityKeyToSession := ∅ |}.

Definition AddSession (session : PeerSession) (sm : SessionManager) : SessionManager :=
  {| sessionNonceToSession :=
       match SessionNonce session with
       | Some n => <[n := session]> (sessionNonceToSession sm)
       | None => sessionNonceToSession sm
       end;
     identityKeyToSession :=
       match PeerIdentityKey session with
       | Some k => <[k := session]> (identityKeyToSession sm)
       | None => identityKeyToSession sm
       end |}.

Definition GetSession (identifier : string) (sm : SessionManager) : option PeerSession :=
  match sessionNonceToSession sm !! identifier with
  | Some s => Some s
  | None => identityKeyToSession sm !! identifier
  end.

Definition UpdateSession (session : PeerSession) (sm : SessionManager) : SessionManager :=
  AddSession session sm.

Definition RemoveSession (identityKey : string) (sm : SessionManager) : SessionManager :=
  match identityKeyToSession sm !! identityKey with
  | Some s =>
      {| sessionNonceToSession :=
           match SessionNonce s with
           | Some n => delete n (sessionNonceToSession sm)
           | None => sessionNonceToSession sm
           end;
         identityKeyToSession := delete identityKey (identityKeyToSession sm) |}
  | None => sm
  end.

(** A session is stored when one of the two indices holds it. *)
Definition stored (s : PeerSession) (sm : SessionManager) : Prop :=
  (exists k, sessionNonceToSession sm !! k = Some s) \/
  (exists k, identityKeyToSession sm !! k = Some s).

End SessionManager.

(** ** A state-and-error monad for the stateful code

    The transport mutates the wallet, the session manager and the response
    writer, and returns [(value, error)].  A computation takes the state and
    returns a [result] together with the state it leaves behind: what was
    written before an error or a panic stays written. *)

Module StateErr.

Definition M (S A : Type) : Type := S -> result A * S.

Definition ret {S A} (a : A) : M S A := fun s => (Ok a, s).
Definition fail {S A} (msg : string) : M S A := fun s => (Err msg, s).
Definition panic {S A} (msg : string) : M S A := fun s => (Panic msg, s).

Definition bind {S A B} (m : M S A) (k : A -> M S B) : M S B :=
  fun s =>
    match m s with
    | (Ok a, s') => k a s'
    | (Err e, s') => (Err e, s')
    | (Panic p, s') => (Panic p, s')
    end.

Definition get {S} : M S S := fun s => (Ok s, s).
Definition modify {S} (f : S -> S) : M S unit := fun s => (Ok tt, f s).
Definition liftR {S A} (r : result A) : M S A := fun s => (r, s).

(** [if err != nil { return ..., fmt.Errorf(prefix + "%w", err) }] *)
Definition wrap {S A} (prefix : string) (m : M S A) : M S A :=
  fun s =>
    match m s with
    | (Err e, s') => (Err (prefix +:+ e), s')
    | other => other
    end.

(** [if err != nil { return ..., errors.New(msg) }] *)
Definition replaceErr {S A} (msg : string) (m : M S A) : M S A :=
  fun s =>
    match m s with
    | (Err _, s') => (Err msg, s')
    | other => other
    end.

(** [if err != nil || !valid { return nil, fmt.Errorf(prefix + "%w", err) }];
    [%w] of a nil error prints as [%!w(<nil>)]. *)
Definition requireValid {S} (prefix : string) (m : M S bool) : M S unit :=
  fun s =>
    match m s with
    | (Ok true, s') => (Ok tt, s')
    | (Ok false, s') => (Err (prefix +:+ "%!w(<nil>)"), s')
    | (Err e, s') => (Err (prefix +:+ e), s')
    | (Panic p, s') => (Panic p, s')
    end.

(** [*p] *)
Definition deref {S A} (p : option A) : M S A :=
  match p with
  | Some a => ret a
  | None => panic "runtime error: invalid memory address or nil pointer dereference"
  end.

End StateErr.

Declare Scope go_scope.
Delimit Scope go_scope with go.
Notation "'let*' x ':=' m 'in' k" := (StateErr.bind m (fun x => k))
  (at level 10, x name, m at level 100, k at level 200, only parsing) : go_scope.

(** ** transport/http/transport.go *)

Module Transport.
Import Encoding HTTP TransportTypes SessionManager StateErr.

Definition authHeaderPrefix : string := "x-bsv-auth-".
Definition requestIDHeader : string := authHeaderPrefix +:+ "request-id".
Definition versionHeader : string := authHeaderPrefix +:+ "version".
Definition identityKeyHeader : string := authHeaderPrefix +:+ "identity-key".
Definition nonceHeader : string := authHeaderPrefix +:+ "nonce".
Definition yourNonceHeader : string := authHeaderPrefix +:+ "your-nonce".
Definition signatureHeader : string := authHeaderPrefix +:+ "signature".
Definition messageTypeHeader : string := authHeaderPrefix +:+ "message-type".

(** [encoding/json] and [utils.WriteRequestData], which the transport
    calls and the sources do not hold.  [WriteRequestData] returns the
    bytes it appends to the writer. *)
Class Codecs := {
  json_Marshal_AuthMessage : AuthMessage -> result (list byte);
  json_Marshal_Certificates : list Wallet.VerifiableCertificate -> result (list byte);
  json_Decode_AuthMessage : list byte -> result AuthMessage;
  WriteRequestData : Request -> result (list byte);
}.

(** [validateBase64] *)
Definition validateBase64 (input : string) : result unit :=
  if snd (base64_DecodeString input) then Ok tt
  else Err "invalid base64 string: illegal base64 data".

(** [isHex] *)
Definition isHex (s : string) : bool :=
  if negb (GoStrings.len s mod 2 =? 0) then false
  else match hex_DecodeString s with Some _ => true | None => false end.

(** [checkHeaders] *)
Definition checkHeaders (req : Request) : result unit :=
  if String.eqb (Get (ReqHeader req) versionHeader) "" then
    Err "missing version header"
  else if String.eqb (Get (ReqHeader req) identityKeyHeader) "" then
    Err "missing identity key header"
  else if String.eqb (Get (ReqHeader req) nonceHeader) "" then
    Err "missing nonce header"
  else if negb (is_Ok (validateBase64 (Get (ReqHeader req) nonceHeader))) then
    Err "invalid nonce header"
  else if String.eqb (Get (ReqHeader req) yourNonceHeader) "" then
    Err "missing your nonce header"
  else if negb (is_Ok (validateBase64 (Get (ReqHeader req) yourNonceHeader))) then
    Err "invalid your nonce header"
  else if String.eqb (Get (ReqHeader req) signatureHeader) "" then
    Err "missing signature header"
  else if negb (isHex (Get (ReqHeader req) signatureHeader)) then
    Err "invalid signature header"
  else Ok tt.

(** The loop of [buildResponsePayload] over [includedHeaders]: for each
    header the key length, the key, the value length, the value. *)
Definition writeIncludedHeaders (includedHeaders : list (string * string))
  : result (list byte) :=
  fold_left
    (fun (acc : result (list byte)) (hdr : string * string) =>
       match acc with
       | Ok w =>
           match WriteVarIntNum (GoStrings.len (fst hdr)) with
           | Ok kl =>
               match WriteVarIntNum (GoStrings.len (snd hdr)) with
               | Ok vl =>
                   Ok (w ++ kl ++ list_byte_of_string (fst hdr)
                         ++ vl ++ list_byte_of_string (snd hdr))
               | _ => Err "failed to write header value length"
               end
           | _ => Err "failed to write header key length"
           end
       | other => other
       end)
    includedHeaders (Ok []).

(** The body of [buildResponsePayload], with the local variable
    [includedHeaders] as a parameter. *)
Definition buildResponsePayloadWith (includedHeaders : list (string * string))
    (requestID : string) (responseStatus : Z) (responseBody : list byte)
  : result (list byte) :=
  match base64_DecodeString requestID with
  | (_, false) => Err "failed to decode request ID"
  | (requestIDBytes, true) =>
    match WriteVarIntNum responseStatus with
    | Ok statusBytes =>
      let headerPart :=
        if Z.of_nat (length includedHeaders) >? 0 then
          match WriteVarIntNum (Z.of_nat (length includedHeaders)) with
          | Ok n =>
              match writeIncludedHeaders includedHeaders with
              | Ok hs => Ok (n ++ hs)
              | other => other
              end
          | _ => Err "failed to write headers length"
          end
        else
          match WriteVarIntNum (-1) with
          | Ok n => Ok n
          | _ => Err "failed to write -1 as headers length"
          end in
      match headerPart with
      | Ok headerBytes =>
        if Z.of_nat (length responseBody) >? 0 then
          match WriteVarIntNum (Z.of_nat (length responseBody)) with
          | Ok n => Ok (requestIDBytes ++ statusBytes ++ headerBytes ++ n ++ responseBody)
          | _ => Err "failed to write body length"
          end
        else
          match WriteVarIntNum (-1) with
          | Ok n => Ok (requestIDBytes ++ statusBytes ++ headerBytes ++ n)
          | _ => Err "failed to write -1 as body length"
          end
      | other => other
      end
    | _ => Err "failed to write response status"
    end
  end.

(** [buildResponsePayload(requestID, responseStatus, responseBody)].  The
    function takes no headers; it declares
    [includedHeaders := make([][]string, 0)] and appends nothing to it: the
    call that would fill it is commented out under
    "TODO: #14 - Collect and sort headers". *)
Definition buildResponsePayload (requestID : string) (responseStatus : Z)
    (responseBody : list byte) : result (list byte) :=
  buildResponsePayloadWith [] requestID responseStatus responseBody.

(** *** The state the transport works on *)

Section WithCollaborators.
Context {ec : EC} {wi : @Wallet.WalletInterface ec} {cd : Codecs}.

(** Ghost trace: the calls the transport makes to its collaborators
    (wallet, application callback, downstream handler), in order.  No
    code reads it; it lets a statement say which calls were made. *)
Inductive Event :=
| EvCreateNonce
| EvVerifyNonce (nonce : string)
| EvGetPublicKey (args : Wallet.GetPublicKeyArgs)
| EvCreateSignature (args : Wallet.CreateSignatureArgs)
| EvVerifySignature (args : Wallet.VerifySignatureArgs)
| EvCertificatesReceived (senderPublicKey : string) (continued : bool)
| EvServeHTTP (req : option Request).

(** The wallet, the session manager, the clock behind [time.Now()] and
    the response writer of the request being served. *)
Record World := {
  wallet : Wallet.WalletState;
  sessionManager : SessionManager;
  clock : Z;
  res : Recorder.ResponseRecorder;
  trace : list Event;
}.

Definition setWallet (ws : Wallet.WalletState) (w : World) : World :=
  {| wallet := ws; sessionManager := sessionManager w; clock := clock w;
     res := res w; trace := trace w |}.
Definition setSessionManager (sm : SessionManager) (w : World) : World :=
  {| wallet := wallet w; sessionManager := sm; clock := clock w;
     res := res w; trace := trace w |}.
Definition setRes (r : Recorder.ResponseRecorder) (w : World) : World :=
  {| wallet := wallet w; sessionManager := sessionManager w; clock := clock w;
     res := r; trace := trace w |}.
Definition logEvent (e : Event) (w : World) : World :=
  {| wallet := wallet w; sessionManager := sessionManager w; clock := clock w;
     res := res w; trace := trace w ++ [e] |}.

(** The application callback [onCertificatesReceived(senderPublicKey,
    certs, req, res, next)]: what it writes to [res], and whether it
    called [next] before it returned. *)
Definition CertificatesCallback : Type :=
  string -> list Wallet.VerifiableCertificate -> Request ->
  list Recorder.WriterOp * bool.

Record Transport := {
  allowUnauthenticated : bool;
  certificateRequirements : option RequestedCertificateSet;
  onCertificatesReceived : option CertificatesCallback;
}.

(** Calls of the wallet, each leaving its mark in the trace. *)
Definition walletCreateNonce : M World string :=
  fun w =>
    let '(r, ws) := Wallet.CreateNonce (wallet w) in
    (r, logEvent EvCreateNonce (setWallet ws w)).

Definition walletVerifyNonce (nonce : string) : M World bool :=
  fun w =>
    let '(r, ws) := Wallet.VerifyNonce nonce (wallet w) in
    (r, logEvent (EvVerifyNonce nonce) (setWallet ws w)).

Definition walletGetPublicKey (args : Wallet.GetPublicKeyArgs)
  : M World Wallet.GetPublicKeyResult :=
  fun w =>
    let '(r, ws) := Wallet.GetPublicKey args (wallet w) in
    (r, logEvent (EvGetPublicKey args) (setWallet ws w)).

Definition walletCreateSignature (args : Wallet.CreateSignatureArgs)
  : M World Wallet.CreateSignatureResult :=
  fun w =>
    let '(r, ws) := Wallet.CreateSignature args (wallet w) in
    (r, logEvent (EvCreateSignature args) (setWallet ws w)).

Definition walletVerifySignature (args : Wallet.VerifySignatureArgs)
  : M World Wallet.VerifySignatureResult :=
  fun w =>
    let '(r, ws) := Wallet.VerifySignature args (wallet w) in
    (r, logEvent (EvVerifySignature args) (setWallet ws w)).

Definition timeNow : M World Z := fun w => (Ok (clock w), w).

Definition smGetSession (identifier : string) : M World (option PeerSession) :=
  fun w => (Ok (GetSession identifier (sessionManager w)), w).
Definition smAddSession (session : PeerSession) : M World unit :=
  modify (fun w => setSessionManager (AddSession session (sessionManager w)) w).
Definition smUpdateSession (session : PeerSession) : M World unit :=
  modify (fun w => setSessionManager (UpdateSession session (sessionManager w)) w).

(** The arguments every signature of the transport is made or checked
    with: the auth protocol, the key ID, the peer as counterparty. *)
Definition baseArgs (keyID : string) (key : ecPublicKey) : Wallet.EncryptionArgs :=
  {| Wallet.ProtocolID := Wallet.DefaultAuthProtocol;
     Wallet.KeyID := keyID;
     Wallet.Counterparty_ :=
       {| Wallet.CounterpartyType := Wallet.CounterpartyTypeOther;
          Wallet.CounterpartyKey := Some key |};
     Wallet.Privileged := false;
     Wallet.PrivilegedReason := "";
     Wallet.SeekPermission := false |}.

(** [createSignature] *)
Definition createSignature (identityKey keyID : string) (data : list byte)
  : M World (list byte) :=
  (let* key := wrap "failed to parse identity key, " (liftR (PublicKeyFromString identityKey)) in
   let* signature := wrap "failed to create signature, "
     (walletCreateSignature
        {| Wallet.csEncryptionArgs := baseArgs keyID key;
           Wallet.csData := data;
           Wallet.DashToDirectlySign := [] |}) in
   ret (Serialize (Wallet.Signature signature)))%go.

(** [createNonGeneralAuthSignature] *)
Definition createNonGeneralAuthSignature (initialNonce sessionNonce identityKey : string)
  : M World (list byte) :=
  let combined := initialNonce +:+ sessionNonce in
  let base64Data := base64_EncodeToString (list_byte_of_string combined) in
  createSignature identityKey combined (list_byte_of_string base64Data).

Definition identityKeyArgs : Wallet.GetPublicKeyArgs :=
  {| Wallet.gpEncryptionArgs := Wallet.zeroEncryptionArgs;
     Wallet.IdentityKey := true;
     Wallet.ForSelf := false |}.

(** [handleInitialRequest] *)
Definition handleInitialRequest (t : Transport) (msg : AuthMessage) : M World AuthMessage :=
  if String.eqb (IdentityKey msg) "" && String.eqb (InitialNonce msg) "" then
    fail "missing required fields in initial request"
  else
    (let* sessionNonce := wrap "failed to create session nonce, " walletCreateNonce in
     let authenticated :=
       match certificateRequirements t with None => true | Some _ => false end in
     let* now := timeNow in
     let session :=
       {| IsAuthenticated := authenticated;
          SessionNonce := Some sessionNonce;
          PeerNonce := Some (InitialNonce msg);
          PeerIdentityKey := Some (IdentityKey msg);
          LastUpdate := now |} in
     let* _ := smAddSession session in
     let* signature := wrap "failed to create signature, "
       (createNonGeneralAuthSignature (InitialNonce msg) sessionNonce (IdentityKey msg)) in
     let* identityKey := wrap "failed to retrieve identity key, "
       (walletGetPublicKey identityKeyArgs) in
     ret {| Version := AuthVersion;
            MessageType := "initialResponse";
            IdentityKey := ToDERHex (Wallet.PublicKey identityKey);
            InitialNonce := sessionNonce;
            Nonce := None;
            YourNonce := Some (InitialNonce msg);
            Signature := Some signature;
            Payload := None;
            RequestedCertificates :=
              match certificateRequirements t with
              | Some reqs => reqs
              | None => zeroRequestedCertificateSet
              end;
            Certificates := None |})%go.

(** [handleCertificateResponse]; [None] is the [(nil, nil)] the function
    returns when the callback did not call [next]. *)
Definition handleCertificateResponse (t : Transport) (msg : AuthMessage) (req : Request)
  : M World (option AuthMessage) :=
  (let* yourNonce := deref (YourNonce msg) in
   let* _ := requireValid "unable to verify nonce, " (walletVerifyNonce yourNonce) in
   match Certificates msg with
   | None => fail "failed to retrieve certificates"
   | Some certificates =>
   match Nonce msg with
   | None => fail "failed to retrieve nonce"
   | Some nonceOfMsg =>
   let* payload := wrap "failed to decode certificates, "
                     (liftR (json_Marshal_Certificates certificates)) in
   let* found := smGetSession (IdentityKey msg) in
   match found with
   | None => fail "no session found for identity key"
   | Some session =>
   match PeerIdentityKey session with
   | None => fail "failed to retrieve peer identity key"
   | Some peerIdentityKey =>
   let* signatureOfMsg := deref (Signature msg) in
   let* signatureToVerify := wrap "failed to parse signature, "
                               (liftR (ParseSignature signatureOfMsg)) in
   let* key := wrap "failed to parse identity key, "
                 (liftR (PublicKeyFromString peerIdentityKey)) in
   let verifySignatureArgs :=
     {| Wallet.vsEncryptionArgs := baseArgs (nonceOfMsg +:+ " " +:+ yourNonce) key;
        Wallet.vsData := payload;
        Wallet.HashToDirectlyVerify := [];
        Wallet.vsSignature := signatureToVerify;
        Wallet.vsForSelf := false |} in
   let* _ := requireValid "unable to verify signature, "
               (let* result := walletVerifySignature verifySignatureArgs in
                ret (Wallet.Valid result)) in
   (* the code after the callback block *)
   let finish (sessionAuthenticated : bool) : M World (option AuthMessage) :=
     let* session :=
       (if sessionAuthenticated then
          let* now := timeNow in
          let session' :=
            {| IsAuthenticated := true;
               SessionNonce := SessionNonce session;
               PeerNonce := PeerNonce session;
               PeerIdentityKey := PeerIdentityKey session;
               LastUpdate := now |} in
          let* _ := smUpdateSession session' in
          ret session'
        else ret session) in
     let* nonce := replaceErr "failed to create nonce" walletCreateNonce in
     let* sessionNonce := deref (SessionNonce session) in
     let* signature := wrap "failed to create signature, "
       (createNonGeneralAuthSignature (InitialNonce msg) sessionNonce (IdentityKey msg)) in
     let* identityKey := wrap "failed to retrieve identity key, "
       (walletGetPublicKey identityKeyArgs) in
     ret (Some {| Version := AuthVersion;
                  MessageType := CertificateResponse;
                  IdentityKey := ToDERHex (Wallet.PublicKey identityKey);
                  InitialNonce := "";
                  Nonce := Some nonce;
                  YourNonce := PeerNonce session;
                  Signature := Some signature;
                  Payload := None;
                  RequestedCertificates := zeroRequestedCertificateSet;
                  Certificates := None |}) in
   match onCertificatesReceived t with
   | Some callback =>
       (* [authCallback] sets both flags; they start false *)
       let '(ops, continued) := callback peerIdentityKey certificates req in
       let* _ := modify (fun w =>
                   logEvent (EvCertificatesReceived peerIdentityKey continued)
                     (setRes (Recorder.applyOps ops (res w)) w)) in
       let sessionAuthenticated := continued in
       let authenticationDone := continued in
       if negb authenticationDone then ret None
       else finish sessionAuthenticated
   | None => finish true
   end
   end end end end)%go.

(** [handleGeneralRequest] *)
Definition handleGeneralRequest (t : Transport) (msg : AuthMessage) : M World AuthMessage :=
  (let* yourNonce := deref (YourNonce msg) in
   let* _ := requireValid "unable to verify nonce, " (walletVerifyNonce yourNonce) in
   let* found := smGetSession yourNonce in
   match found with
   | None => fail "session not found"
   | Some session =>
   if negb (IsAuthenticated session) && negb (allowUnauthenticated t) then
     match certificateRequirements t with
     | Some _ => fail "no certificates provided"
     | None => fail "session not authenticated"
     end
   else
   let* signatureOfMsg := deref (Signature msg) in
   let* signature := wrap "failed to parse signature, "
                       (liftR (ParseSignature signatureOfMsg)) in
   let* peerIdentityKey := deref (PeerIdentityKey session) in
   let* key := wrap "failed to parse identity key, "
                 (liftR (PublicKeyFromString peerIdentityKey)) in
   let* nonceOfMsg := deref (Nonce msg) in
   let* payload := deref (Payload msg) in
   let verifySignatureArgs :=
     {| Wallet.vsEncryptionArgs := baseArgs (nonceOfMsg +:+ " " +:+ yourNonce) key;
        Wallet.vsData := payload;
        Wallet.HashToDirectlyVerify := [];
        Wallet.vsSignature := signature;
        Wallet.vsForSelf := false |} in
   let* _ := requireValid "unable to verify signature, "
               (let* result := walletVerifySignature verifySignatureArgs in
                ret (Wallet.Valid result)) in
   let* now := timeNow in
   let session' :=
     {| IsAuthenticated := IsAuthenticated session;
        SessionNonce := SessionNonce session;
        PeerNonce := PeerNonce session;
        PeerIdentityKey := PeerIdentityKey session;
        LastUpdate := now |} in
   let* _ := smUpdateSession session' in
   let* nonce := wrap "failed to create nonce, " walletCreateNonce in
   let* identityKey := wrap "failed to retrieve identity key, "
     (walletGetPublicKey identityKeyArgs) in
   ret {| Version := AuthVersion;
          MessageType := "general";
          IdentityKey := ToDERHex (Wallet.PublicKey identityKey);
          InitialNonce := "";
          Nonce := Some nonce;
          YourNonce := PeerNonce session';
          Signature := None;
          Payload := None;
          RequestedCertificates := zeroRequestedCertificateSet;
          Certificates := None |}
   end)%go.

(** [handleIncomingMessage] *)
Definition handleIncomingMessage (t : Transport) (msg : AuthMessage) (req : Request)
  : M World (option AuthMessage) :=
  if negb (String.eqb (Version msg) AuthVersion) then
    fail "unsupported version"
  else if String.eqb (MessageType msg) InitialRequest then
    (let* r := handleInitialRequest t msg in ret (Some r))%go
  else if String.eqb (MessageType msg) CertificateResponse then
    handleCertificateResponse t msg req
  else if String.eqb (MessageType msg) InitialResponse
          || String.eqb (MessageType msg) CertificateRequest then
    fail "not implemented"
  else if String.eqb (MessageType msg) General then
    (let* r := handleGeneralRequest t msg in ret (Some r))%go
  else
    fail "unsupported message type".

(** [setupHeaders].  The Go code fills a map and sets every entry on
    the writer's header; the names are distinct, so the order in which
    the map is walked does not show. *)
Definition responseHeaders (response : AuthMessage) (requestID : string)
  : list (string * string) :=
  [ (versionHeader, Version response);
    (messageTypeHeader, MessageType response);
    (identityKeyHeader, IdentityKey response) ]
  ++ (if String.eqb (MessageType response) General
      then [ (requestIDHeader, requestID) ] else [])
  ++ match Nonce response with
     | Some n => [ (nonceHeader, n) ] | None => [] end
  ++ match YourNonce response with
     | Some n => [ (yourNonceHeader, n) ] | None => [] end
  ++ match Signature response with
     | Some sig => [ (signatureHeader, hex_EncodeToString sig) ] | None => [] end.

Definition setupHeaders (response : AuthMessage) (requestID : string) : M World unit :=
  modify (fun w =>
    setRes (fold_left (fun r kv => Recorder.SetHeader (fst kv) (snd kv) r)
              (responseHeaders response requestID) (res w)) w).

(** [setupContent] *)
Definition setupContent (response : AuthMessage) : M World unit :=
  modify (fun w =>
    let r := Recorder.SetHeader "Content-Type" "application/json" (res w) in
    match json_Marshal_AuthMessage response with
    | Ok b => setRes (Recorder.Write b r) w
    | _ =>
        setRes (Recorder.httpError "failed to marshal response"
                  StatusInternalServerError r) w
    end).

(** [buildAuthMessageFromRequest] *)
Definition buildAuthMessageFromRequest (req : Request) : result AuthMessage :=
  let requestNonce := Get (ReqHeader req) requestIDHeader in
  let requestNonceBytes :=
    if negb (String.eqb requestNonce "")
    then fst (base64_DecodeString requestNonce) else [] in
  match WriteRequestData req with
  | Ok data =>
      let payloadBytes := requestNonceBytes ++ data in
      let nonce := Get (ReqHeader req) nonceHeader in
      let yourNonce := Get (ReqHeader req) yourNonceHeader in
      let signature := Get (ReqHeader req) signatureHeader in
      let authMessage (sig : option (list byte)) :=
        {| Version := Get (ReqHeader req) versionHeader;
           MessageType := "general";
           IdentityKey := Get (ReqHeader req) identityKeyHeader;
           InitialNonce := "";
           Nonce := if negb (String.eqb nonce "") then Some nonce else None;
           YourNonce := if negb (String.eqb yourNonce "") then Some yourNonce else None;
           Signature := sig;
           Payload := Some payloadBytes;
           RequestedCertificates := zeroRequestedCertificateSet;
           Certificates := None |} in
      if negb (String.eqb signature "") then
        match hex_DecodeString signature with
        | Some decodedBytes => Ok (authMessage (Some decodedBytes))
        | None => Err "error decoding signature"
        end
      else Ok (authMessage None)
  | _ => Err "failed to write request data"
  end.

(** [parseAuthMessage] *)
Definition parseAuthMessage (req : Request) : result AuthMessage :=
  match json_Decode_AuthMessage (ReqBody req) with
  | Ok m => Ok m
  | _ => Err "failed to decode request body"
  end.

(** [setupContext] *)
Definition setupContext (req : Request) (requestData : AuthMessage) (requestID : string)
  : Request :=
  {| Method := Method req; URLPath := URLPath req; ReqHeader := ReqHeader req;
     ReqBody := ReqBody req;
     ctxIdentityKey := Some (IdentityKey requestData);
     ctxRequestID := Some requestID |}.

(** [getValuesFromContext]; [req] is a pointer, nil after the
    unauthenticated pass-through. *)
Definition getValuesFromContext (req : option Request) : result (string * string) :=
  match req with
  | None => Panic "runtime error: invalid memory address or nil pointer dereference"
  | Some r =>
      match ctxIdentityKey r with
      | None => Err "identity key not found in context"
      | Some identityKey =>
          match ctxRequestID r with
          | None => Err "request ID not found in context"
          | Some requestID => Ok (identityKey, requestID)
          end
      end
  end.

(** [HandleNonGeneralRequest] *)
Definition HandleNonGeneralRequest (t : Transport) (req : Request) : M World unit :=
  (let* requestData := liftR (parseAuthMessage req) in
   let requestID :=
     if String.eqb (Get (ReqHeader req) requestIDHeader) ""
     then InitialNonce requestData
     else Get (ReqHeader req) requestIDHeader in
   let* response := handleIncomingMessage t requestData req in
   match response with
   | None => ret tt
   | Some response =>
       let* _ := setupHeaders response requestID in
       setupContent response
   end)%go.

(** [HandleGeneralRequest]: the request to hand on and the message to
    answer with; both are nil on the unauthenticated pass-through. *)
Definition HandleGeneralRequest (t : Transport) (req : Request)
  : M World (option Request * option AuthMessage) :=
  let requestID := Get (ReqHeader req) requestIDHeader in
  if String.eqb requestID "" then
    if allowUnauthenticated t then ret (None, None)
    else fail "missing request ID"
  else
    (let* _ := liftR (checkHeaders req) in
     let* requestData := liftR (buildAuthMessageFromRequest req) in
     let* response := handleIncomingMessage t requestData req in
     let req := setupContext req requestData requestID in
     ret (Some req, response))%go.

(** [HandleResponse]; it returns the message with the signature it
    stored through the [msg] pointer. *)
Definition HandleResponse (t : Transport) (req : option Request) (body : list byte)
    (status : Z) (msg : option AuthMessage) : M World (option AuthMessage) :=
  if allowUnauthenticated t then ret msg
  else
    (let* ctx := liftR (getValuesFromContext req) in
     let identityKey := fst ctx in
     let requestID := snd ctx in
     let* found := smGetSession identityKey in
     match found with
     | None => fail "session not found"
     | Some session =>
         let* payload := liftR (buildResponsePayload requestID status body) in
         let* nonce := wrap "failed to create nonce, " walletCreateNonce in
         let peerNonce := match PeerNonce session with Some n => n | None => "" end in
         let signatureKey := nonce +:+ " " +:+ peerNonce in
         let* signature := createSignature identityKey signatureKey payload in
         let* m := deref msg in
         let m' :=
           {| Version := Version m; MessageType := MessageType m;
              IdentityKey := IdentityKey m; InitialNonce := InitialNonce m;
              Nonce := Nonce m; YourNonce := YourNonce m;
              Signature := Some signature;
              Payload := Payload m;
              RequestedCertificates := RequestedCertificates m;
              Certificates := Certificates m |} in
         let* _ := setupHeaders m' requestID in
         ret (Some m')
     end)%go.

End WithCollaborators.
End Transport.

(** ** middleware/auth: [Middleware.Handler] *)

Module Middleware.
Import HTTP TransportTypes StateErr Transport.

Section WithCollaborators.
Context {ec : EC} {wi : @Wallet.WalletInterface ec} {cd : Codecs}.

(** The downstream [http.Handler]: what it does to the writer it is
    given for a request (nil after the unauthenticated pass-through). *)
Definition NextHandler : Type := option Request -> list Recorder.WriterOp.

(** [&ResponseRecorder{ResponseWriter: w, statusCode: http.StatusOK}] *)
Definition newRecorder (w : ResponseWriter) : Recorder.ResponseRecorder :=
{| Recorder.ResponseWriter_ := w;
   Recorder.statusCode := StatusOK;
   Recorder.body := [] |}.

(** [next.ServeHTTP(recorder, req)]: the handler's calls reach the
    recorder. *)
Definition serveNext (next : NextHandler) (req : option Request) (world : World) : World :=
logEvent (EvServeHTTP req)
  (setRes (Recorder.applyOps (next req) (res world)) world).

(** The function [Handler(next)] returns, applied to the server's
    writer [w] and to [req].  A transport error is answered, not
    returned: the result is [Ok tt] unless the code panics. *)
Definition Handler (t : Transport) (next : NextHandler)
    (w : ResponseWriter) (req : Request) : M World unit :=
fun world =>
  let world := setRes (newRecorder w) world in
  if String.eqb (Method req) MethodPost
     && String.eqb (URLPath req) "/.well-known/auth" then
    match HandleNonGeneralRequest t req world with
    | (Panic p, world') => (Panic p, world')
    | (_, world') =>
        (Ok tt, setRes (Recorder.flush (Recorder.body (res world')) (res world')) world')
    end
  else
    match HandleGeneralRequest t req world with
    | (Panic p, world') => (Panic p, world')
    | (Err e, world') =>
        (Ok tt, setRes (Recorder.httpError e StatusUnauthorized (res world')) world')
    | (Ok (req', authMsg), world') =>
        let world' := serveNext next req' world' in
        match HandleResponse t req' (Recorder.body (res world'))
                (Recorder.statusCode (res world')) authMsg world' with
        | (Panic p, world'') => (Panic p, world'')
        | (Err e, world'') =>
            (Ok tt, setRes (Recorder.httpError e StatusInternalServerError
                              (res world'')) world'')
        | (Ok _, world'') =>
            (Ok tt, setRes (Recorder.flush (Recorder.body (res world''))
                              (res world'')) world'')
        end
    end.

(** What the client sees of a served request. *)
Definition clientStatus (world : World) : option Z :=
  status (Recorder.ResponseWriter_ (res world)).
Definition clientBody (world : World) : list byte :=
  sent (Recorder.ResponseWriter_ (res world)).
Definition clientHeader (world : World) (key : string) : string :=
  Get (header (Recorder.ResponseWriter_ (res world))) key.

End WithCollaborators.
End Middleware.

(** ** Test doubles

    A deterministic wallet in the manner of the repository's mock wallet
    (nonces handed out from a list, one fixed signature), a stand-in for the
    curve library, and codecs that never fail.  They instantiate the
    interfaces for the worked runs below. *)

Module Fixtures.
Import HTTP TransportTypes SessionManager Transport Middleware.

Definition ServerIdentityKey : string :=
  "02e14bb0fb9a3b2d9bbcc4e1e1d1c2a3b4c5d6e7f8091a2b3c4d5e6f708192a3b4".
Definition ClientIdentityKey : string :=
  "0377d1a1a5b8c2d3e4f5061728394a5b6c7d8e9f00112233445566778899aabbcc".

Definition mockSignature : list byte := list_byte_of_string "mocksignaturedata".

(** Keys are their hex text: 66 hex digits that start with 02 or 03. *)
Definition mockPublicKeyFromString (s : string) : result string :=
  if (GoStrings.len s =? 66)
     && isHex s
     && (GoStrings.HasPrefix s "02" || GoStrings.HasPrefix s "03")
  then Ok s else Err "invalid public key".

#[export] Instance mockEC : EC := {|
  ecPrivateKey := list byte;
  ecPublicKey := string;
  ecSignature := list byte;
  PubKey := fun k => "02" +:+ Encoding.hex_EncodeToString k;
  PrivateKeyFromBytes := fun b => (b, "02" +:+ Encoding.hex_EncodeToString b);
  PublicKeyFromString := mockPublicKeyFromString;
  ToDERHex := fun k => k;
  ParseSignature := fun b =>
    match b with [] => Err "malformed signature: too short" | _ => Ok b end;
  Serialize := fun s => s;
|}.

Record MockWalletState := {
  toIssue : list string;     (* the nonces still to hand out *)
  issued : list string;      (* the nonces handed out so far *)
}.

#[export] Instance mockWallet : @Wallet.WalletInterface mockEC := {|
  Wallet.WalletState := MockWalletState;
  Wallet.CreateNonce := fun ws =>
    match toIssue ws with
    | n :: rest => (Ok n, {| toIssue := rest; issued := n :: issued ws |})
    | [] => (Err "no nonce left", ws)
    end;
  Wallet.VerifyNonce := fun n ws =>
    (Ok (existsb (String.eqb n) (issued ws)), ws);
  Wallet.GetPublicKey := fun _ ws =>
    (Ok {| Wallet.PublicKey := ServerIdentityKey |}, ws);
  Wallet.CreateSignature := fun _ ws =>
    (Ok {| Wallet.Signature := mockSignature |}, ws);
  Wallet.VerifySignature := fun args ws =>
    (Ok {| Wallet.Valid :=
             String.eqb (string_of_list_byte (Wallet.vsSignature args))
                        (string_of_list_byte mockSignature) |}, ws);
|}.

#[export] Instance mockCodecs : Codecs := {|
  json_Marshal_AuthMessage := fun m =>
    Ok (list_byte_of_string ("{" +:+ MessageType m +:+ "}"));
  json_Marshal_Certificates := fun _ => Ok (list_byte_of_string "[]");
  json_Decode_AuthMessage := fun _ => Err "unexpected end of JSON input";
  WriteRequestData := fun req =>
    Ok (list_byte_of_string (Method req +:+ URLPath req));
|}.

Definition DefaultNonces : list string :=
  [ "c2Vzc2lvbi1ub25jZS0w"; "c2VydmVyLW5vbmNlLTE="; "c2VydmVyLW5vbmNlLTI=" ].
Definition ClientNonce : string := "Y2xpZW50LW5vbmNlLTA=".
Definition RequestNonce : string := "cmVxdWVzdC1pZA==".

Definition initialWorld : World :=
  {| wallet := {| toIssue := DefaultNonces; issued := [] |};
     sessionManager := NewSessionManager;
     clock := 0;
     res := {| Recorder.ResponseWriter_ := newResponseWriter;
               Recorder.statusCode := StatusOK;
               Recorder.body := [] |};
     trace := [] |}.

Definition strictTransport : Transport :=
  {| allowUnauthenticated := false;
     certificateRequirements := None;
     onCertificatesReceived := None |}.

Definition openTransport : Transport :=
  {| allowUnauthenticated := true;
     certificateRequirements := None;
     onCertificatesReceived := None |}.

Definition ageRequirements : RequestedCertificateSet :=
  {| Certifiers := [ "02certifier" ];
     Types := {[ "age-verification" := [ "age" ] ]} |}.

(** Certificates are required and no callback is configured. *)
Definition certTransportNoCallback : Transport :=
  {| allowUnauthenticated := false;
     certificateRequirements := Some ageRequirements;
     onCertificatesReceived := None |}.

Definition initialRequestOf (identityKey initialNonce : string) : AuthMessage :=
  {| Version := "0.1"; MessageType := InitialRequest;
     IdentityKey := identityKey; InitialNonce := initialNonce;
     Nonce := None; YourNonce := None; Signature := None; Payload := None;
     RequestedCertificates := zeroRequestedCertificateSet;
     Certificates := None |}.

(** A general request with the full header set, answering the session
    nonce [yourNonce]. *)
Definition generalHeaders (yourNonce : string) : gmap string string :=
  {[ "x-bsv-auth-version" := "0.1";
     "x-bsv-auth-identity-key" := ClientIdentityKey;
     "x-bsv-auth-nonce" := ClientNonce;
     "x-bsv-auth-your-nonce" := yourNonce;
     "x-bsv-auth-signature" := Encoding.hex_EncodeToString mockSignature;
     "x-bsv-auth-request-id" := RequestNonce ]}.

Definition pingRequest (h : gmap string string) : Request :=
  {| Method := "GET"; URLPath := "/ping"; ReqHeader := h; ReqBody := [];
     ctxIdentityKey := None; ctxRequestID := None |}.

(** The ping handler of the examples. *)
Definition pingHandler : NextHandler :=
  fun _ => [ Recorder.OpWrite (list_byte_of_string "Pong!") ].

(** [strings.TrimSpace] and [strings.ToLower] on ASCII text, where they
    agree with the Unicode functions: white space is tab, line feed,
    vertical tab, form feed, carriage return and space. *)
Definition isAsciiSpace (c : ascii) : bool :=
let n := Encoding.code c in (Z.leb 9 n && Z.leb n 13) || Z.eqb n 32.

Fixpoint dropSpaces (l : list ascii) : list ascii :=
match l with
| c :: r => if isAsciiSpace c then dropSpaces r else l
| [] => []
end.

Definition asciiTrimSpace (s : string) : string :=
string_of_list_ascii
  (rev (dropSpaces (rev (dropSpaces (list_ascii_of_string s))))).

#[export] Instance asciiStrings : UnicodeStrings := {|
  ToLower := HTTP.lower;
  TrimSpace := asciiTrimSpace;
|}.

(** A handler that sets a content type before it writes. *)
Definition plainTextHandler : NextHandler :=
fun _ => [ Recorder.OpSetHeader "Content-Type" "text/plain";
           Recorder.OpWrite (list_byte_of_string "Pong!") ].


(** The nonce the wallet hands out first: the session nonce of the first
    handshake. *)
Definition SessionNonce0 : string := "c2Vzc2lvbi1ub25jZS0w".

(** The world after the client's handshake with transport [t]. *)
Definition afterHandshake (t : Transport) : World :=
snd (handleInitialRequest t (initialRequestOf ClientIdentityKey ClientNonce) initialWorld).

(** The authenticated ping of the examples: full header set, answering
    the session nonce. *)
Definition authenticatedPing : Request := pingRequest (generalHeaders SessionNonce0).

(** A certificateResponse of the client, with an empty certificate list. *)
Definition certificateResponseOf (yourNonce : string) : AuthMessage :=
{| Version := "0.1"; MessageType := CertificateResponse;
   IdentityKey := ClientIdentityKey; InitialNonce := ClientNonce;
   Nonce := Some ClientNonce; YourNonce := Some yourNonce;
   Signature := Some mockSignature; Payload := None;
   RequestedCertificates := zeroRequestedCertificateSet;
   Certificates := Some [] |}.

(** The ping of the examples without its version header. *)
Definition pingWithoutVersion : Request :=
pingRequest (delete "x-bsv-auth-version" (generalHeaders SessionNonce0)).

Definition authRequest : Request :=
{| Method := "POST"; URLPath := "/.well-known/auth"; ReqHeader := ∅; ReqBody := [];
   ctxIdentityKey := None; ctxRequestID := None |}.

End Fixtures.

(** ** The properties, in the words of the specification

    These definitions state what the specification asks for; they are
    compared with the code in the theorems that follow. *)

Module Spec.
Import Encoding GoStrings HTTP TransportTypes SessionManager StateErr.
Import Transport Middleware.

(** *** Section 4.2, step 3: the constraints on an invoice number *)


Definition lowercaseLetterDigitOrSpace (c : ascii) : Prop :=
  97 <= code c <= 122 \/ 48 <= code c <= 57 \/ code c = 32.


(** *** Section 4.4: the header filter rule

    "only headers whose names start with x-bsv-auth- except
    x-bsv-auth-signature and x-bsv-auth-request-id, plus content-type and
    authorization where present; sort by lowercase name ascending". *)

Definition signedHeaderName (name : string) : bool :=
  (HasPrefix name "x-bsv-auth-"
   && negb (String.eqb name "x-bsv-auth-signature")
   && negb (String.eqb name "x-bsv-auth-request-id"))
  || String.eqb name "content-type"
  || String.eqb name "authorization".

Fixpoint insertByName (kv : string * string) (l : list (string * string))
  : list (string * string) :=
  match l with
  | [] => [kv]
  | x :: r => if String.leb (fst kv) (fst x) then kv :: l else x :: insertByName kv r
  end.

Definition sortByName (l : list (string * string)) : list (string * string) :=
  fold_right insertByName [] l.

Definition FilterAndSortHeaders (h : Header) : list (string * string) :=
  sortByName (List.filter (fun kv => signedHeaderName (fst kv)) (map_to_list h)).

(** The response payload of section 4.4 for a response with headers [h]. *)
Definition expectedResponsePayload (h : Header) (requestID : string)
    (responseStatus : Z) (responseBody : list byte) : result (list byte) :=
  buildResponsePayloadWith (FilterAndSortHeaders h) requestID responseStatus responseBody.

(** The body part of a payload (section 4.4): "bodyLen (varint; -1 if
    empty)", then the body bytes. *)
Definition bodyPart (body : list byte) : list byte :=
if Z.of_nat (length body) >? 0 then varint (Z.of_nat (length body)) ++ body
else varint (-1).

(** *** Section 4.6: the auth headers of a general request are malformed
    when one of version, identity-key, nonce, your-nonce, signature is
    missing, a nonce is not base64, or the signature is not hex. *)

Definition missing (req : Request) (name : string) : Prop :=
  Get (ReqHeader req) name = "".
Definition notBase64 (s : string) : Prop := snd (base64_DecodeString s) = false.
Definition notHex (s : string) : Prop := hex_DecodeString s = None.

Definition malformedAuthHeaders (req : Request) : Prop :=
  missing req versionHeader \/
  missing req identityKeyHeader \/
  missing req nonceHeader \/
  missing req yourNonceHeader \/
  missing req signatureHeader \/
  notBase64 (Get (ReqHeader req) nonceHeader) \/
  notBase64 (Get (ReqHeader req) yourNonceHeader) \/
  notHex (Get (ReqHeader req) signatureHeader).

(** A general request is any request but POST /.well-known/auth. *)
Definition isGeneral (req : Request) : Prop :=
  (String.eqb (Method req) MethodPost
   && String.eqb (URLPath req) "/.well-known/auth") = false.

(** *** The bytes of the last [Write] among a handler's calls *)


Section WithCollaborators.
Context {ec : EC} {wi : @Wallet.WalletInterface ec} {cd : Codecs}.

(** *** Section 3, invariant 4, over the operations of the transport *)

Inductive Operation :=
| CallHandleNonGeneralRequest (req : Request)
| CallHandleGeneralRequest (req : Request)
| CallHandleResponse (req : option Request) (body : list byte) (status : Z)
    (msg : option AuthMessage)
| CallHandleIncomingMessage (msg : AuthMessage) (req : Request)
| CallHandler (next : NextHandler) (w : ResponseWriter) (req : Request)
| Tick (now : Z).       (* time passes between two operations *)

Definition perform (t : Transport) (op : Operation) (w : World) : World :=
  match op with
  | CallHandleNonGeneralRequest req => snd (HandleNonGeneralRequest t req w)
  | CallHandleGeneralRequest req => snd (HandleGeneralRequest t req w)
  | CallHandleResponse req body status msg =>
      snd (HandleResponse t req body status msg w)
  | CallHandleIncomingMessage msg req => snd (handleIncomingMessage t msg req w)
  | CallHandler next rw req => snd (Handler t next rw req w)
  | Tick now =>
      {| wallet := wallet w; sessionManager := sessionManager w; clock := now;
         res := res w; trace := trace w |}
  end.

Definition performAll (t : Transport) (ops : list Operation) (w : World) : World :=
  fold_left (fun w op => perform t op w) ops w.





(** The key IDs the wallet was asked to sign under, in order. *)
Definition signingKeyIDs (tr : list Event) : list string :=
flat_map (fun e => match e with
                   | EvCreateSignature args =>
                       [Wallet.KeyID (Wallet.csEncryptionArgs args)]
                   | _ => []
                   end) tr.

(** The data the wallet was asked to sign, in order. *)
Definition signedData (tr : list Event) : list (list byte) :=
flat_map (fun e => match e with
                   | EvCreateSignature args => [Wallet.csData args]
                   | _ => []
                   end) tr.

(** The requests the downstream handler was called with, in order. *)
Definition servedRequests (tr : list Event) : list (option Request) :=
flat_map (fun e => match e with EvServeHTTP r => [r] | _ => [] end) tr.

End WithCollaborators.
End Spec.

(** * More of the code *)

(** ** The key deriver: [DerivePublicKey] and [DerivePrivateKey] *)

Module KeyDerivation.
Import Wallet GoStrings KeyDeriver.

(** The two [DeriveChild] methods of the curve library:
    [PrivateKey.DeriveChild(pub, invoiceNumber)] and
    [PublicKey.DeriveChild(priv, invoiceNumber)]. *)
Class ECDerive {ec : EC} := {
  PrivateDeriveChild : ecPrivateKey -> ecPublicKey -> string -> result ecPrivateKey;
  PublicDeriveChild : ecPublicKey -> ecPrivateKey -> string -> result ecPublicKey;
}.

Section WithLibraries.
Context {ec : EC} {ecd : @ECDerive ec} {us : UnicodeStrings}.

(** [DerivePublicKey] *)
Definition DerivePublicKey (kd : KeyDeriver) (protocol : Protocol) (keyID : string)
    (counterparty : Counterparty) (forSelf : bool) : result ecPublicKey :=
match normalizeCounterparty kd counterparty with
| Ok counterpartyKey =>
    match computeInvoiceNumber kd protocol keyID with
    | Ok invoiceNumber =>
        if forSelf then
          match PrivateDeriveChild (rootKey kd) counterpartyKey invoiceNumber with
          | Ok privKey => Ok (PubKey privKey)
          | Err e => Err ("failed to derive child private key: " +:+ e)
          | Panic p => Panic p
          end
        else
          match PublicDeriveChild counterpartyKey (rootKey kd) invoiceNumber with
          | Ok pubKey => Ok pubKey
          | Err e => Err ("failed to derive child public key: " +:+ e)
          | Panic p => Panic p
          end
    | Err e => Err ("failed to compute invoice number: " +:+ e)
    | Panic p => Panic p
    end
| Err e => Err e
| Panic p => Panic p
end.

(** [DerivePrivateKey] *)
Definition DerivePrivateKey (kd : KeyDeriver) (protocol : Protocol) (keyID : string)
    (counterparty : Counterparty) : result ecPrivateKey :=
match normalizeCounterparty kd counterparty with
| Ok counterpartyKey =>
    match computeInvoiceNumber kd protocol keyID with
    | Ok invoiceNumber =>
        match PrivateDeriveChild (rootKey kd) counterpartyKey invoiceNumber with
        | Ok k => Ok k
        | Err e => Err ("failed to derive child key: " +:+ e)
        | Panic p => Panic p
        end
    | Err e => Err e
    | Panic p => Panic p
    end
| Err e => Err e
| Panic p => Panic p
end.

(** The contract of the curve library the deriver relies on: a child
    derived from a public key with the other side's private key is the
    public key of the child derived from that private key's own side. *)
Definition deriveChildSymmetric : Prop :=
forall (a b : ecPrivateKey) (invoiceNumber : string),
  PublicDeriveChild (PubKey b) a invoiceNumber =
  match PrivateDeriveChild b (PubKey a) invoiceNumber with
  | Ok k => Ok (PubKey k)
  | Err e => Err e
  | Panic p => Panic p
  end.

(** The counterparty of type other with the key [key]. *)
Definition otherCounterparty (key : ecPublicKey) : Counterparty :=
{| CounterpartyType := CounterpartyTypeOther; CounterpartyKey := Some key |}.

End WithLibraries.
End KeyDerivation.

(** ** examples/auth/certificates: the age-verification callback *)

Module AgeExample.
Import Encoding GoStrings HTTP.

Definition trustedCertifier : string :=
  "02certifieridentitykey00000000000000000000000000000000000000000000000".

Definition StatusForbidden : Z := 403.

(** [fmt.Sprintf("%v", v)] for a field value [v] of dynamic type, given
    as the JSON text the certificate holds. *)
Class Fmt := { Sprintf_v : string -> string }.

(** [strconv.Atoi]: an optional sign, then decimal digits only, and a value
    that fits a 64-bit int. *)
Fixpoint parseDigits (acc : Z) (l : list ascii) : option Z :=
match l with
| [] => Some acc
| c :: r =>
    if between "0" "9" c then parseDigits (acc * 10 + (code c - 48)) r else None
end.

Definition Atoi (s : string) : result Z :=
let syntaxError := Err ("strconv.Atoi: parsing " +:+ dquote +:+ s +:+ dquote
                        +:+ ": invalid syntax") in
let rangeError := Err ("strconv.Atoi: parsing " +:+ dquote +:+ s +:+ dquote
                       +:+ ": value out of range") in
let parse (neg : bool) (digits : list ascii) :=
  match digits with
  | [] => syntaxError
  | _ =>
      match parseDigits 0 digits with
      | None => syntaxError
      | Some v =>
          let v := if neg then - v else v in
          if Z.leb (- 2 ^ 63) v && Z.leb v (2 ^ 63 - 1) then Ok v else rangeError
      end
  end in
match list_ascii_of_string s with
| [] => syntaxError
| c :: r =>
    if code c =? 45 then parse true r
    else if code c =? 43 then parse false r
    else parse false (c :: r)
end.

Section WithFmt.
Context {fm : Fmt}.

(** The body of the [for] loop: does this certificate verify the age of
    [senderPublicKey]?  Every [continue] is a [false]. *)
Definition certificateVerifiesAge (senderPublicKey : string)
    (cert : Wallet.VerifiableCertificate) : bool :=
let c := Wallet.Certificate_ cert in
if negb (String.eqb (Wallet.Subject c) senderPublicKey) then false
else if negb (String.eqb (Wallet.Certifier c) trustedCertifier) then false
else if negb (String.eqb (Wallet.Type_ c) "age-verification") then false
else
  match Wallet.Fields c !! "age" with
  | None => false
  | Some ageVal =>
      match Atoi (Sprintf_v ageVal) with
      | Ok age => if age <? 18 then false else true
      | _ => false
      end
  end.

(** [onCertificatesReceived] of the example: the calls it makes on [res]
    and whether it called [next].  The transport passes a non-nil [certs]
    and a non-nil [next]. *)
Definition onCertificatesReceived (senderPublicKey : string)
    (certs : list Wallet.VerifiableCertificate) (req : Request)
  : list Recorder.WriterOp * bool :=
if Z.of_nat (length certs) =? 0 then
  ([ Recorder.OpWriteHeader StatusForbidden;
     Recorder.OpWrite (list_byte_of_string "No age verification certificate provided") ],
   false)
else
  let validAge := existsb (certificateVerifiesAge senderPublicKey) certs in
  if negb validAge then
    ([ Recorder.OpWriteHeader StatusForbidden;
       Recorder.OpWrite
         (list_byte_of_string "Age verification failed. Must be 18 or older.") ],
     false)
  else ([], true).

End WithFmt.
End AgeExample.

(** ** Further properties, in the words of the code *)

Module MoreSpec.
Import Encoding GoStrings HTTP TransportTypes SessionManager StateErr.
Import Transport Middleware Spec.



(** The request with its x-bsv-auth-identity-key header replaced. *)
Definition withIdentityKeyHeader (k : string) (req : Request) : Request :=
{| Method := Method req; URLPath := URLPath req;
   ReqHeader := Set_ (ReqHeader req) identityKeyHeader k;
   ReqBody := ReqBody req;
   ctxIdentityKey := ctxIdentityKey req; ctxRequestID := ctxRequestID req |}.

(** None of the three pointers of a session is nil. *)
Definition wellFormedSession (s : PeerSession) : Prop :=
SessionNonce s <> None /\ PeerNonce s <> None /\ PeerIdentityKey s <> None.

Definition sessionsWellFormed (sm : SessionManager) : Prop :=
forall s, stored s sm -> wellFormedSession s.


Section WithCollaborators.
Context {ec : EC} {wi : @Wallet.WalletInterface ec} {cd : Codecs}.


(** The session [handleInitialRequest] stores for [msg] when the wallet
    issued [sessionNonce]. *)
Definition sessionFor (t : Transport) (msg : AuthMessage) (sessionNonce : string)
    (now : Z) : PeerSession :=
{| IsAuthenticated := match certificateRequirements t with None => true | Some _ => false end;
   SessionNonce := Some sessionNonce;
   PeerNonce := Some (InitialNonce msg);
   PeerIdentityKey := Some (IdentityKey msg);
   LastUpdate := now |}.

(** [s] with its authentication flag set and its time stamp replaced. *)
Definition touched (authenticated : bool) (now : Z) (s : PeerSession) : PeerSession :=
{| IsAuthenticated := authenticated;
   SessionNonce := SessionNonce s;
   PeerNonce := PeerNonce s;
   PeerIdentityKey := PeerIdentityKey s;
   LastUpdate := now |}.

(** The calls of the wallet in a trace. *)
Definition walletCalls (tr : list Event) : list Event :=
List.filter (fun e => match e with
                      | EvCertificatesReceived _ _ | EvServeHTTP _ => false
                      | _ => true
                      end) tr.

End WithCollaborators.
End MoreSpec.

(** ** Test doubles for the key deriver

    A toy group in place of the curve: a private key is a number, its
    public key is that number times a generator modulo a prime, and a child
    key adds a tweak computed from the shared secret and the invoice
    number. *)

Module ToyCurve.
Import KeyDerivation.

Definition q : Z := 1000003.
Definition g : Z := 5.

Definition toyPub (k : Z) : Z := (k * g) mod q.
Definition toyTweak (sharedSecret : Z) (invoiceNumber : string) : Z :=
  (sharedSecret + Z.of_nat (String.length invoiceNumber)) mod q.

#[export] Instance toyEC : EC := {|
  ecPrivateKey := Z;
  ecPublicKey := Z;
  ecSignature := list byte;
  PubKey := toyPub;
  PrivateKeyFromBytes := fun b =>
    let k := fold_left (fun acc x => acc * 256 + Encoding.Z_of_byte x) b 0 in
    (k, toyPub k);
  PublicKeyFromString := fun _ => Err "not a key";
  ToDERHex := fun k => GoStrings.itoa k;
  ParseSignature := fun b => Ok b;
  Serialize := fun s => s;
|}.

Definition toyPrivateDeriveChild (a pubB : Z) (invoiceNumber : string) : result Z :=
  Ok ((a + toyTweak ((a * pubB) mod q) invoiceNumber) mod q).

Definition toyPublicDeriveChild (pubA b : Z) (invoiceNumber : string) : result Z :=
  Ok ((pubA + toyTweak ((b * pubA) mod q) invoiceNumber * g) mod q).

#[export] Instance toyDerive : @ECDerive toyEC := {|
  PrivateDeriveChild := toyPrivateDeriveChild;
  PublicDeriveChild := toyPublicDeriveChild;
|}.

End ToyCurve.

(** ** Test doubles for the further runs *)

Module MoreFixtures.
Import HTTP TransportTypes SessionManager Transport Middleware Fixtures.

(** A general message as [buildAuthMessageFromRequest] builds it, answering
    the session nonce [yourNonce]. *)
Definition generalMessageOf (yourNonce : string) : AuthMessage :=
{| Version := "0.1"; MessageType := General;
   IdentityKey := ClientIdentityKey; InitialNonce := "";
   Nonce := Some ClientNonce; YourNonce := Some yourNonce;
   Signature := Some mockSignature;
   Payload := Some (list_byte_of_string "GET/ping");
   RequestedCertificates := zeroRequestedCertificateSet;
   Certificates := None |}.

(** A certificateResponse whose [yourNonce] is absent from the JSON body. *)
Definition certificateResponseWithoutYourNonce : AuthMessage :=
{| Version := "0.1"; MessageType := CertificateResponse;
   IdentityKey := ClientIdentityKey; InitialNonce := ClientNonce;
   Nonce := Some ClientNonce; YourNonce := None;
   Signature := Some mockSignature; Payload := None;
   RequestedCertificates := zeroRequestedCertificateSet;
   Certificates := Some [] |}.

(** Codecs whose decoder yields that message for every body. *)
Definition decodingCodecs : Codecs :=
{| json_Marshal_AuthMessage := fun m =>
     Ok (list_byte_of_string ("{" +:+ MessageType m +:+ "}"));
   json_Marshal_Certificates := fun _ => Ok (list_byte_of_string "[]");
   json_Decode_AuthMessage := fun _ => Ok certificateResponseWithoutYourNonce;
   WriteRequestData := fun req =>
     Ok (list_byte_of_string (Method req +:+ URLPath req)) |}.

(** Codecs whose decoder yields the client's initialRequest. *)
Definition handshakeCodecs : Codecs :=
{| json_Marshal_AuthMessage := fun m =>
     Ok (list_byte_of_string ("{" +:+ MessageType m +:+ "}"));
   json_Marshal_Certificates := fun _ => Ok (list_byte_of_string "[]");
   json_Decode_AuthMessage := fun _ => Ok (initialRequestOf ClientIdentityKey ClientNonce);
   WriteRequestData := fun req =>
     Ok (list_byte_of_string (Method req +:+ URLPath req)) |}.

(** A field value prints as its text. *)
Definition plainFmt : AgeExample.Fmt := {| AgeExample.Sprintf_v := fun s => s |}.

(** The transport of the certificates example: the age requirement and the
    example's callback. *)
Definition ageTransport : Transport :=
{| allowUnauthenticated := false;
   certificateRequirements := Some ageRequirements;
   onCertificatesReceived := Some (@AgeExample.onCertificatesReceived plainFmt) |}.



(** The peer's key claimed by an impostor. *)
Definition OtherIdentityKey : string :=
  "02aaaaaaaaaaaaaaaaaaaaaaaaaaaaaaaaaaaaaaaaaaaaaaaaaaaaaaaaaaaaaaaaaa".

End MoreFixtures.

(** * Theorems *)

(** ** Byte strings *)

Module StringFacts.
Import GoStrings Spec.

Lemma len_nonneg s : 0 <= len s.
Proof. unfold len. lia. Qed.





Lemma app_nil s : "" +:+ s = s.
Proof. reflexivity. Qed.

Lemma app_cons c a b : String c a +:+ b = String c (a +:+ b).
Proof. reflexivity. Qed.


Lemma inClass_spec c :
  Wallet.inClass_az09sp c = true <-> lowercaseLetterDigitOrSpace c.
Proof.
  unfold Wallet.inClass_az09sp, lowercaseLetterDigitOrSpace, Encoding.code.
  rewrite !orb_true_iff, !andb_true_iff, !Z.leb_le, Z.eqb_eq. tauto.
Qed.

Lemma regex_spec s :
  1 <= len s ->
  (Wallet.regexOnlyLettersNumbersSpaces_MatchString s = true <->
   forall c, In c (list_ascii_of_string s) -> lowercaseLetterDigitOrSpace c).
Proof.
  intros Hlen. unfold Wallet.regexOnlyLettersNumbersSpaces_MatchString.
  destruct s as [|a s]; [unfold len in Hlen; simpl in Hlen; lia |].
  rewrite forallb_forall. split; intros H c Hc; apply inClass_spec, H, Hc.
Qed.

End StringFacts.

(** ** The key deriver *)

Module KeyDeriverFacts.
Import Wallet GoStrings KeyDeriver Spec StringFacts.

Section WithLibraries.
Context `{EC} `{UnicodeStrings}.


(** C8.  [normalizeCounterparty] maps type self to the public key of
    the deriver's root key, anyone to the public half of the key pair
    made from the one-byte private scalar 1, other to the supplied key
    and to an error when that key is nil, and uninitialized, like any
    other type value, to an error. *)
Theorem normalizeCounterparty_spec (kd : KeyDeriver) (key : option ecPublicKey) (t : Z) :
  let c := {| CounterpartyType := t; CounterpartyKey := key |} in
  match t with
  | 2 => normalizeCounterparty kd c = Ok (PubKey (rootKey kd))
  | 1 => normalizeCounterparty kd c = Ok (snd (PrivateKeyFromBytes [x01]))
  | 3 =>
      match key with
      | Some k => normalizeCounterparty kd c = Ok k
      | None => exists e, normalizeCounterparty kd c = Err e
      end
  | _ => exists e, normalizeCounterparty kd c = Err e
  end.
Proof.
  intros c. unfold normalizeCounterparty, c; simpl.
  unfold CounterpartyTypeSelf, CounterpartyTypeOther, CounterpartyTypeAnyone,
    CounterpartyUninitialized, AnyoneKey.
  destruct t as [|p|p]; simpl; eauto.
  destruct p as [p|p|]; simpl; eauto.
  - destruct p as [p|p|]; simpl; eauto.
    destruct key; eauto.
  - destruct p as [p|p|]; simpl; eauto.
Qed.

End WithLibraries.
End KeyDeriverFacts.




(** ** The payload codec *)

Module CodecFacts.
Import Encoding GoStrings HTTP Transport Spec.


(** The -1 sentinel: 0xFF and the eight bytes of -1 as a signed 64-bit
    value. *)
Lemma varint_sentinel :
  varint (-1) = [xff; xff; xff; xff; xff; xff; xff; xff; xff].
Proof. reflexivity. Qed.


End CodecFacts.

(** ** The transport *)

Module TransportFacts.
Import Encoding GoStrings HTTP TransportTypes SessionManager StateErr.
Import Transport Middleware Spec CodecFacts.

Lemma hex_DecodeString_even_aux s :
  (forall b, hex_DecodeString s = Some b -> len s mod 2 = 0) /\
  (forall a b, hex_DecodeString (String a s) = Some b -> len (String a s) mod 2 = 0).
Proof.
  unfold len. induction s as [|c s [IH1 IH2]].
  - split; [reflexivity | discriminate].
  - split; [exact (IH2 c) |].
    intros a b Hb. cbn [hex_DecodeString] in Hb.
    destruct (fromHexChar a), (fromHexChar c); try discriminate.
    destruct (hex_DecodeString s) eqn:Hr; try discriminate.
    specialize (IH1 _ eq_refl).
    cbn [String.length]. rewrite !Nat2Z.inj_succ.
    replace (Z.succ (Z.succ (Z.of_nat (String.length s))))
      with (Z.of_nat (String.length s) + 1 * 2) by lia.
    rewrite Z.mod_add by lia. exact IH1.
Qed.

Lemma hex_DecodeString_even s b : hex_DecodeString s = Some b -> len s mod 2 = 0.
Proof. apply hex_DecodeString_even_aux. Qed.

Lemma isHex_spec s : isHex s = false <-> notHex s.
Proof.
  unfold isHex, notHex.
  destruct (hex_DecodeString s) eqn:Hd.
  - rewrite (hex_DecodeString_even _ _ Hd). simpl. split; discriminate.
  - destruct (negb _); split; reflexivity.
Qed.

Lemma checkHeaders_spec req :
  (malformedAuthHeaders req /\ exists e, checkHeaders req = Err e) \/
  (~ malformedAuthHeaders req /\ checkHeaders req = Ok tt).
Proof.
  unfold checkHeaders, malformedAuthHeaders, missing, notBase64, validateBase64.
  destruct (String.eqb_spec (Get (ReqHeader req) versionHeader) ""); [left; eauto 10 |].
  destruct (String.eqb_spec (Get (ReqHeader req) identityKeyHeader) ""); [left; eauto 10 |].
  destruct (String.eqb_spec (Get (ReqHeader req) nonceHeader) ""); [left; eauto 10 |].
  destruct (snd (base64_DecodeString (Get (ReqHeader req) nonceHeader))) eqn:Hn; simpl;
    [| left; eauto 10].
  destruct (String.eqb_spec (Get (ReqHeader req) yourNonceHeader) ""); [left; eauto 10 |].
  destruct (snd (base64_DecodeString (Get (ReqHeader req) yourNonceHeader))) eqn:Hy; simpl;
    [| left; eauto 10].
  destruct (String.eqb_spec (Get (ReqHeader req) signatureHeader) ""); [left; eauto 10 |].
  destruct (isHex (Get (ReqHeader req) signatureHeader)) eqn:Hx; simpl.
  - right. split; [| reflexivity].
    intros [H | [H | [H | [H | [H | [H | [H | H]]]]]]]; try congruence.
    apply isHex_spec in H. congruence.
  - left. split; [| eauto]. apply isHex_spec in Hx. tauto.
Qed.


Section WithCollaborators.
Context {ec : EC} {wi : @Wallet.WalletInterface ec} {cd : Codecs}.


(** C9.  A message whose version is not "0.1" is rejected with
    "unsupported version" before the message type is looked at, whatever the
    type: the world is returned as it was, so no session is created or
    changed and the wallet is not called. *)
Theorem handleIncomingMessage_unsupported_version
    (t : Transport) (msg : AuthMessage) (req : Request) (w : World) :
  Version msg <> AuthVersion ->
  handleIncomingMessage t msg req w = (Err "unsupported version", w) /\
  sessionManager (snd (handleIncomingMessage t msg req w)) = sessionManager w /\
  wallet (snd (handleIncomingMessage t msg req w)) = wallet w /\
  trace (snd (handleIncomingMessage t msg req w)) = trace w.
Proof.
  intros Hv. unfold handleIncomingMessage.
  destruct (String.eqb_spec (Version msg) AuthVersion) as [Heq | _]; [contradiction |].
  simpl. repeat split; reflexivity.
Qed.


Ltac unfold_monad :=
  unfold walletCreateNonce, walletVerifyNonce, walletGetPublicKey, walletCreateSignature,
    walletVerifySignature, timeNow, smGetSession, smAddSession, smUpdateSession in *;
  unfold bind, wrap, replaceErr, requireValid, liftR, deref, ret, fail, panic, modify in *.

(* one step of a run whose outcome [H] records *)
Ltac run_step H :=
  match type of H with
  | context [match ?x with _ => _ end] =>
      lazymatch x with
      | context [match _ with _ => _ end] => fail
      | _ => destruct x eqn:?; cbv beta iota zeta in H; try discriminate H
      end
  | context [if ?x then _ else _] =>
      lazymatch x with
      | context [match _ with _ => _ end] => fail
      | _ => destruct x eqn:?; cbv beta iota zeta in H; try discriminate H
      end
  end.

Lemma body_fold_SetHeader (hs : list (string * string)) (r : Recorder.ResponseRecorder) :
  Recorder.body (fold_left (fun r kv => Recorder.SetHeader (fst kv) (snd kv) r) hs r)
  = Recorder.body r /\
  Recorder.statusCode (fold_left (fun r kv => Recorder.SetHeader (fst kv) (snd kv) r) hs r)
  = Recorder.statusCode r /\
  sent (Recorder.ResponseWriter_
          (fold_left (fun r kv => Recorder.SetHeader (fst kv) (snd kv) r) hs r))
  = sent (Recorder.ResponseWriter_ r) /\
  status (Recorder.ResponseWriter_
          (fold_left (fun r kv => Recorder.SetHeader (fst kv) (snd kv) r) hs r))
  = status (Recorder.ResponseWriter_ r).
Proof.
  revert r. induction hs as [|kv hs IH]; intros r; simpl; [tauto |].
  destruct (IH (Recorder.SetHeader (fst kv) (snd kv) r)) as (-> & -> & -> & ->).
  simpl. tauto.
Qed.


Lemma stored_AddSession s s' sm :
  stored s' (AddSession s sm) -> s' = s \/ stored s' sm.
Proof.
  unfold stored, AddSession; simpl.
  intros [[k Hk] | [k Hk]].
  - destruct (SessionNonce s) as [n|]; [| right; left; eauto].
    destruct (decide (n = k)) as [->|Hne].
    + rewrite lookup_insert_eq in Hk. left. congruence.
    + rewrite lookup_insert_ne in Hk by exact Hne. right; left; eauto.
  - destruct (PeerIdentityKey s) as [n|]; [| right; right; eauto].
    destruct (decide (n = k)) as [->|Hne].
    + rewrite lookup_insert_eq in Hk. left. congruence.
    + rewrite lookup_insert_ne in Hk by exact Hne. right; right; eauto.
Qed.

Lemma GetSession_stored k s sm : GetSession k sm = Some s -> stored s sm.
Proof.
  unfold GetSession, stored. destruct (sessionNonceToSession sm !! k) eqn:Hn.
  - intros [= <-]. left. eauto.
  - intros H. right. eauto.
Qed.


Ltac run_all H :=
  repeat match type of H with
  | context [match ?x with _ => _ end] =>
      lazymatch x with
      | context [match _ with _ => _ end] => fail
      | _ => destruct x eqn:?; cbv beta iota zeta in H
      end
  | context [if ?x then _ else _] =>
      lazymatch x with
      | context [match _ with _ => _ end] => fail
      | _ => destruct x eqn:?; cbv beta iota zeta in H
      end
  end.
















Lemma httpError_status (e : string) (c : Z) (r : Recorder.ResponseRecorder) :
  status (Recorder.ResponseWriter_ r) = None ->
  status (Recorder.ResponseWriter_ (Recorder.httpError e c r)) = Some c /\
  sent (Recorder.ResponseWriter_ (Recorder.httpError e c r)) = sent (Recorder.ResponseWriter_ r).
Proof.
  intros Hs. unfold Recorder.httpError, Recorder.Write, Recorder.WriteHeader,
    Recorder.SetHeader, Recorder.DelHeader, rwWriteHeader, rwSetHeader, rwDelHeader.
  simpl. rewrite Hs. simpl. split; reflexivity.
Qed.

(** C5, amended.  A general request with malformed auth headers that
    carries x-bsv-auth-request-id, or that arrives while unauthenticated
    requests are not allowed, is answered with HTTP 401 (Unauthorized): the
    downstream handler is not called, nothing is sent but the status, and
    neither the sessions nor the wallet are touched. *)
Theorem malformed_headers_answered_401
    (t : Transport) (next : NextHandler) (rw : ResponseWriter) (req : Request)
    (world : World) :
  isGeneral req ->
  malformedAuthHeaders req ->
  Get (ReqHeader req) requestIDHeader <> "" \/ allowUnauthenticated t = false ->
  status rw = None ->
  let out := Handler t next rw req world in
  fst out = Ok tt /\
  clientStatus (snd out) = Some StatusUnauthorized /\
  clientBody (snd out) = sent rw /\
  trace (snd out) = trace world /\
  sessionManager (snd out) = sessionManager world /\
  wallet (snd out) = wallet world.
Proof.
  intros Hgen Hbad Hmode Hfresh out. unfold out, Handler.
  unfold isGeneral in Hgen. rewrite Hgen.
  assert (Hfail : exists e,
    HandleGeneralRequest t req (setRes (newRecorder rw) world)
    = (Err e, setRes (newRecorder rw) world)).
  { unfold HandleGeneralRequest.
    destruct (String.eqb_spec (Get (ReqHeader req) requestIDHeader) "") as [Hid | Hid].
    - destruct Hmode as [Hne | Hoff]; [contradiction |]. rewrite Hoff. eauto.
    - destruct (checkHeaders_spec req) as [[_ [e He]] | [Hok _]]; [| contradiction].
      unfold bind, liftR. rewrite He. eauto. }
  destruct Hfail as [e ->].
  unfold clientStatus, clientBody. cbn [fst snd res setRes trace sessionManager wallet].
  destruct (httpError_status e StatusUnauthorized (newRecorder rw) Hfresh) as [-> ->].
  repeat split; reflexivity.
Qed.

Lemma buildAuthMessageFromRequest_fields (req : Request) (m : AuthMessage) :
  buildAuthMessageFromRequest req = Ok m ->
  MessageType m = General /\
  Version m = Get (ReqHeader req) versionHeader /\
  IdentityKey m = Get (ReqHeader req) identityKeyHeader /\
  Nonce m = (if negb (String.eqb (Get (ReqHeader req) nonceHeader) "")
             then Some (Get (ReqHeader req) nonceHeader) else None) /\
  YourNonce m = (if negb (String.eqb (Get (ReqHeader req) yourNonceHeader) "")
                 then Some (Get (ReqHeader req) yourNonceHeader) else None).
Proof.
  unfold buildAuthMessageFromRequest. intros H.
  repeat run_step H.
  all: inversion H; subst; clear H; cbn; repeat split; reflexivity.
Qed.

Lemma handleIncomingMessage_general (t : Transport) (msg : AuthMessage) (req : Request)
    (w : World) :
  MessageType msg = General ->
  handleIncomingMessage t msg req w =
  if negb (String.eqb (Version msg) AuthVersion) then (Err "unsupported version", w)
  else match handleGeneralRequest t msg w with
       | (Ok r, w') => (Ok (Some r), w')
       | (Err e, w') => (Err e, w')
       | (Panic p, w') => (Panic p, w')
       end.
Proof.
  intros Hty. unfold handleIncomingMessage. rewrite Hty.
  destruct (negb (String.eqb (Version msg) AuthVersion)); [reflexivity |].
  cbn. unfold bind, ret. destruct (handleGeneralRequest t msg w) as [[r | e | p] w']; reflexivity.
Qed.











End WithCollaborators.
End TransportFacts.

(** ** The transport on the fixtures: worked runs *)

Module Runs.
Import Encoding GoStrings HTTP TransportTypes SessionManager StateErr.
Import Transport Middleware Spec Fixtures CodecFacts.

(** The invoice number of the auth protocol, and two rejected inputs. *)
Example computeInvoiceNumber_auth :
  KeyDeriver.computeInvoiceNumber (KeyDeriver.NewKeyDeriver None)
    Wallet.DefaultAuthProtocol "nonce1 nonce2"
  = Ok "2-auth message signature-nonce1 nonce2".
Proof. reflexivity. Qed.

Example computeInvoiceNumber_normalises :
  KeyDeriver.computeInvoiceNumber (KeyDeriver.NewKeyDeriver None)
    {| Wallet.SecurityLevel := 1; Wallet.ProtocolName := "  Hello World 42 " |} "k"
  = Ok "1-hello world 42-k".
Proof. reflexivity. Qed.

Example computeInvoiceNumber_rejects :
  is_Err (KeyDeriver.computeInvoiceNumber (KeyDeriver.NewKeyDeriver None)
            {| Wallet.SecurityLevel := 2; Wallet.ProtocolName := " Auth Protocol " |} "k")
  = true /\
  is_Err (KeyDeriver.computeInvoiceNumber (KeyDeriver.NewKeyDeriver None)
            {| Wallet.SecurityLevel := 3; Wallet.ProtocolName := "auth message" |} "k")
  = true /\
  is_Err (KeyDeriver.computeInvoiceNumber (KeyDeriver.NewKeyDeriver None)
            Wallet.DefaultAuthProtocol "")
  = true.
Proof. repeat split; reflexivity. Qed.

(** C1.  A response whose handler set Content-Type: the payload the
    transport signs carries the -1 sentinel where the specification puts the
    count and the encodings of the filtered headers (here content-type and
    the x-bsv-auth- headers of the response), so it differs from the payload
    of section 4.4. *)
Theorem buildResponsePayload_omits_headers :
  let world := snd (Handler strictTransport plainTextHandler newResponseWriter
                      authenticatedPing (afterHandshake strictTransport)) in
  let h := header (Recorder.ResponseWriter_ (res world)) in
  clientStatus world = Some 200 /\
  map fst (FilterAndSortHeaders h) =
    [ "content-type"; "x-bsv-auth-identity-key"; "x-bsv-auth-message-type";
      "x-bsv-auth-nonce"; "x-bsv-auth-version"; "x-bsv-auth-your-nonce" ] /\
  last (signedData (trace world)) =
    Some (fst (base64_DecodeString RequestNonce) ++ varint 200 ++ varint (-1)
            ++ bodyPart (list_byte_of_string "Pong!")) /\
  Some (buildResponsePayload RequestNonce 200 (list_byte_of_string "Pong!")) =
    Ok <$> last (signedData (trace world)) /\
  expectedResponsePayload h RequestNonce 200 (list_byte_of_string "Pong!") <>
    buildResponsePayload RequestNonce 200 (list_byte_of_string "Pong!").
Proof.
  vm_compute. repeat split; try reflexivity. discriminate.
Qed.

(** C2.  An authenticated general request served end to end: the
    x-bsv-auth-nonce header of the response is the nonce
    [handleGeneralRequest] drew from the wallet (the second the wallet
    issued), while [HandleResponse] draws another nonce (the third) and
    signs under the key ID made of that one and the peer nonce.  The nonce
    the client is sent is not the nonce of the signing key ID. *)
Theorem general_response_nonce_differs_from_signing_nonce :
  let world := snd (Handler strictTransport pingHandler newResponseWriter
                      authenticatedPing (afterHandshake strictTransport)) in
  clientStatus world = Some 200 /\
  clientHeader world "x-bsv-auth-signature" = hex_EncodeToString mockSignature /\
  clientHeader world "x-bsv-auth-nonce" = "c2VydmVyLW5vbmNlLTE=" /\
  last (signingKeyIDs (trace world)) = Some ("c2VydmVyLW5vbmNlLTI=" +:+ " " +:+ ClientNonce) /\
  last (signingKeyIDs (trace world)) <>
    Some (clientHeader world "x-bsv-auth-nonce" +:+ " " +:+ ClientNonce).
Proof.
  vm_compute. repeat split; try reflexivity. discriminate.
Qed.

(** C3.  An initialRequest with an identity key and an empty initialNonce
    is accepted: [handleInitialRequest] answers with an initialResponse and
    stores a session whose peer nonce is the empty string.  An
    initialRequest with an empty identity key and a nonce fails later, at
    the signature, after the session with the empty peer identity key was
    stored. *)
Theorem handleInitialRequest_rejects_only_both_empty :
  let r1 := handleInitialRequest strictTransport
              (initialRequestOf ClientIdentityKey "") initialWorld in
  let r2 := handleInitialRequest strictTransport
              (initialRequestOf "" ClientNonce) initialWorld in
  (is_Ok (fst r1) = true /\
   GetSession ClientIdentityKey (sessionManager (snd r1)) =
     Some {| IsAuthenticated := true; SessionNonce := Some SessionNonce0;
             PeerNonce := Some ""; PeerIdentityKey := Some ClientIdentityKey;
             LastUpdate := 0 |}) /\
  (is_Err (fst r2) = true /\
   GetSession SessionNonce0 (sessionManager (snd r2)) =
     Some {| IsAuthenticated := true; SessionNonce := Some SessionNonce0;
             PeerNonce := Some ClientNonce; PeerIdentityKey := Some "";
             LastUpdate := 0 |}).
Proof.
  vm_compute. repeat split; reflexivity.
Qed.


(** C9, on a message of version 0.2. *)
Lemma handleIncomingMessage_unsupported_version_witness :
  let msg := {| Version := "0.2"; MessageType := General;
                IdentityKey := ClientIdentityKey; InitialNonce := "";
                Nonce := Some ClientNonce; YourNonce := Some SessionNonce0;
                Signature := Some mockSignature; Payload := Some [];
                RequestedCertificates := zeroRequestedCertificateSet;
                Certificates := None |} in
  Version msg <> AuthVersion /\
  handleIncomingMessage strictTransport msg authenticatedPing
    (afterHandshake strictTransport)
  = (Err "unsupported version", afterHandshake strictTransport).
Proof.
  intros msg.
  assert (Hv : Version msg <> AuthVersion) by discriminate.
  split; [exact Hv |].
  exact (proj1 (TransportFacts.handleIncomingMessage_unsupported_version
                  strictTransport msg authenticatedPing
                  (afterHandshake strictTransport) Hv)).
Defined.


(** C5, as stated, fails.  A general request without the version header is
    answered 401, not 400; and when unauthenticated requests are allowed a
    request without any auth header is not refused at all: it reaches the
    handler and is answered 200. *)
Lemma malformed_headers_not_answered_400 :
  (isGeneral pingWithoutVersion /\ malformedAuthHeaders pingWithoutVersion /\
   clientStatus (snd (Handler strictTransport pingHandler newResponseWriter
                        pingWithoutVersion (afterHandshake strictTransport)))
   <> Some StatusBadRequest) /\
  (isGeneral (pingRequest ∅) /\ malformedAuthHeaders (pingRequest ∅) /\
   clientStatus (snd (Handler openTransport pingHandler newResponseWriter
                        (pingRequest ∅) (afterHandshake openTransport)))
   = Some StatusOK).
Proof.
  split; (split; [reflexivity |]); (split; [left; reflexivity |]).
  - vm_compute. discriminate.
  - vm_compute. reflexivity.
Qed.

(** C5, amended, on the ping without its version header. *)
Lemma malformed_headers_answered_401_witness :
  isGeneral pingWithoutVersion /\
  malformedAuthHeaders pingWithoutVersion /\
  Get (ReqHeader pingWithoutVersion) requestIDHeader <> "" /\
  status newResponseWriter = None /\
  clientStatus (snd (Handler strictTransport pingHandler newResponseWriter
                       pingWithoutVersion (afterHandshake strictTransport)))
  = Some StatusUnauthorized.
Proof.
  assert (H1 : isGeneral pingWithoutVersion) by reflexivity.
  assert (H2 : malformedAuthHeaders pingWithoutVersion) by (left; reflexivity).
  assert (H3 : Get (ReqHeader pingWithoutVersion) requestIDHeader <> "")
    by (vm_compute; discriminate).
  assert (H4 : status newResponseWriter = None) by reflexivity.
  split; [exact H1 |]. split; [exact H2 |]. split; [exact H3 |]. split; [exact H4 |].
  exact (proj1 (proj2 (TransportFacts.malformed_headers_answered_401
                         strictTransport pingHandler newResponseWriter
                         pingWithoutVersion (afterHandshake strictTransport)
                         H1 H2 (or_introl H3) H4))).
Defined.




End Runs.

(** * More of the code: theorems *)

(** ** The key deriver *)

Module KeyDerivationFacts.
Import Wallet GoStrings KeyDeriver KeyDerivation Spec StringFacts.

Lemma append_assoc (a b c : string) : (a +:+ b) +:+ c = a +:+ (b +:+ c).
Proof. induction a as [|x a IH]; [reflexivity |]. rewrite !app_cons, IH. reflexivity. Qed.

Lemma dash_not_in_class : ~ lowercaseLetterDigitOrSpace "-"%char.
Proof.
  unfold lowercaseLetterDigitOrSpace. change (Encoding.code "-"%char) with 45. lia.
Qed.

(* a dash does not occur in a string of the class [a-z0-9 ] *)
Lemma split_at_dash (n1 n2 k1 k2 : string) :
  (forall c, In c (list_ascii_of_string n1) -> lowercaseLetterDigitOrSpace c) ->
  (forall c, In c (list_ascii_of_string n2) -> lowercaseLetterDigitOrSpace c) ->
  n1 +:+ "-" +:+ k1 = n2 +:+ "-" +:+ k2 ->
  n1 = n2 /\ k1 = k2.
Proof.
  revert n2. induction n1 as [|c n1 IH]; intros n2 H1 H2 Heq.
  - destruct n2 as [|d n2].
    + rewrite !app_nil in Heq. inversion Heq. tauto.
    + rewrite app_nil, app_cons in Heq. inversion Heq; subst d.
      destruct (dash_not_in_class (H2 "-"%char (or_introl eq_refl))).
  - destruct n2 as [|d n2].
    + rewrite app_nil, app_cons in Heq. inversion Heq; subst c.
      destruct (dash_not_in_class (H1 "-"%char (or_introl eq_refl))).
    + rewrite !app_cons in Heq. inversion Heq; subst d.
      destruct (IH n2) as [-> ->]; try assumption; [| | tauto].
      * intros x Hx. apply H1. right. exact Hx.
      * intros x Hx. apply H2. right. exact Hx.
Qed.

Section WithLibraries.
Context {ec : EC} {ecd : @ECDerive ec} {us : UnicodeStrings}.

(* what a computed invoice number looks like *)
Lemma computeInvoiceNumber_ok (kd : KeyDeriver) (protocol : Protocol) (keyID s : string) :
  computeInvoiceNumber kd protocol keyID = Ok s ->
  let name := ToLower (TrimSpace (ProtocolName protocol)) in
  s = itoa (SecurityLevel protocol) +:+ "-" +:+ name +:+ "-" +:+ keyID /\
  0 <= SecurityLevel protocol <= 2 /\
  1 <= len keyID <= 800 /\
  (forall c, In c (list_ascii_of_string name) -> lowercaseLetterDigitOrSpace c).
Proof.
  intros H name. unfold computeInvoiceNumber in H. fold name in H.
  destruct ((SecurityLevel protocol <? 0) || (SecurityLevel protocol >? 2)) eqn:Hl;
    [discriminate |].
  destruct (len keyID >? 800) eqn:Hk1; [discriminate |].
  destruct (len keyID <? 1) eqn:Hk2; [discriminate |].
  apply orb_false_iff in Hl. rewrite Z.ltb_ge, Z.gtb_ltb, Z.ltb_ge in Hl.
  rewrite Z.gtb_ltb, Z.ltb_ge in Hk1. rewrite Z.ltb_ge in Hk2.
  assert (Hrest :
    (if len name <? 5 then Err "protocol names must be 5 characters or more"
     else if Contains name "  " then
       Err ("protocol names cannot contain multiple consecutive spaces ("
            +:+ dquote +:+ "  " +:+ dquote +:+ ")")
     else if negb (regexOnlyLettersNumbersSpaces_MatchString name) then
       Err "protocol names can only contain letters, numbers and spaces"
     else if HasSuffix name " protocol" then
       Err ("no need to end your protocol name with " +:+ dquote
            +:+ " protocol" +:+ dquote)
     else Ok (itoa (SecurityLevel protocol) +:+ "-" +:+ name +:+ "-" +:+ keyID)) = Ok s).
  { cbv zeta in H.
    destruct (len name >? 400); [| exact H].
    destruct (HasPrefix name "specific linkage revelation "); [| discriminate].
    destruct (len name >? 430); [discriminate | exact H]. }
  destruct (len name <? 5) eqn:H5; [discriminate |]. rewrite Z.ltb_ge in H5.
  destruct (Contains name "  "); [discriminate |].
  destruct (regexOnlyLettersNumbersSpaces_MatchString name) eqn:Hr; [| discriminate].
  destruct (HasSuffix name " protocol"); [discriminate |].
  simpl in Hrest. inversion Hrest.
  split; [reflexivity |]. split; [lia |]. split; [lia |].
  apply regex_spec; [lia | exact Hr].
Qed.

Lemma itoa_level (l : Z) : 0 <= l <= 2 -> exists d, itoa l = String d "".
Proof.
  intros H. assert (l = 0 \/ l = 1 \/ l = 2) as [-> | [-> | ->]] by lia;
    eexists; reflexivity.
Qed.

Lemma itoa_level_inj (l1 l2 : Z) :
  0 <= l1 <= 2 -> 0 <= l2 <= 2 -> itoa l1 = itoa l2 -> l1 = l2.
Proof.
  intros H1 H2.
  assert (l1 = 0 \/ l1 = 1 \/ l1 = 2) as [-> | [-> | ->]] by lia;
  assert (l2 = 0 \/ l2 = 1 \/ l2 = 2) as [-> | [-> | ->]] by lia;
  cbv; congruence.
Qed.

(** X22.  Invoice numbers do not collide: two accepted inputs with the
    same invoice number have the same security level, the same normalised
    protocol name and the same key ID. *)
Theorem invoiceNumber_injective (kd1 kd2 : KeyDeriver) (p1 p2 : Protocol)
    (k1 k2 s : string) :
  computeInvoiceNumber kd1 p1 k1 = Ok s ->
  computeInvoiceNumber kd2 p2 k2 = Ok s ->
  SecurityLevel p1 = SecurityLevel p2 /\
  ToLower (TrimSpace (ProtocolName p1)) = ToLower (TrimSpace (ProtocolName p2)) /\
  k1 = k2.
Proof.
  intros H1 H2.
  destruct (computeInvoiceNumber_ok _ _ _ _ H1) as (E1 & L1 & _ & C1).
  destruct (computeInvoiceNumber_ok _ _ _ _ H2) as (E2 & L2 & _ & C2).
  rewrite E1 in E2.
  destruct (itoa_level _ L1) as [d1 D1]. destruct (itoa_level _ L2) as [d2 D2].
  rewrite D1, D2 in E2. rewrite !app_cons, !app_nil in E2.
  injection E2 as Hd E3.
  split.
  { apply itoa_level_inj; try assumption. rewrite D1, D2, Hd. reflexivity. }
  apply (split_at_dash _ _ _ _ C1 C2). exact E3.
Qed.

(** X23.  [DerivePublicKey] with [forSelf] set returns the public key of
    the key [DerivePrivateKey] returns for the same arguments, fails when it
    fails and panics when it panics. *)
Theorem DerivePublicKey_forSelf (kd : KeyDeriver) (p : Protocol) (k : string)
    (c : Counterparty) :
  match DerivePrivateKey kd p k c with
  | Ok key => DerivePublicKey kd p k c true = Ok (PubKey key)
  | Err _ => exists e, DerivePublicKey kd p k c true = Err e
  | Panic m => DerivePublicKey kd p k c true = Panic m
  end.
Proof.
  unfold DerivePrivateKey, DerivePublicKey.
  destruct (normalizeCounterparty kd c); eauto.
  destruct (computeInvoiceNumber kd p k); eauto.
  destruct (PrivateDeriveChild (rootKey kd) a a0); eauto.
Qed.

(** X24.  Given the symmetry of the curve library's two [DeriveChild]
    methods, the public key one party derives for a counterparty is the
    public key of the private key that counterparty derives with the first
    party as its counterparty. *)
Theorem derivation_symmetric (a b : ecPrivateKey) (p : Protocol) (k : string) :
  deriveChildSymmetric ->
  let kdA := {| rootKey := a |} in
  let kdB := {| rootKey := b |} in
  (forall key, DerivePrivateKey kdB p k (otherCounterparty (PubKey a)) = Ok key ->
     DerivePublicKey kdA p k (otherCounterparty (PubKey b)) false = Ok (PubKey key)) /\
  (forall P, DerivePublicKey kdA p k (otherCounterparty (PubKey b)) false = Ok P ->
     exists key, DerivePrivateKey kdB p k (otherCounterparty (PubKey a)) = Ok key /\ P = PubKey key).
Proof.
  intros Hsym kdA kdB.
  unfold DerivePrivateKey, DerivePublicKey, normalizeCounterparty, otherCounterparty,
    CounterpartyTypeOther, CounterpartyTypeSelf. cbn.
  assert (Hinv : computeInvoiceNumber kdA p k = computeInvoiceNumber kdB p k) by reflexivity.
  rewrite Hinv.
  destruct (computeInvoiceNumber kdB p k) as [inv | e | m].
  2,3: split; intros ? H; discriminate H.
  rewrite (Hsym a b inv).
  destruct (PrivateDeriveChild b (PubKey a) inv) as [key | e | m].
  - split.
    + intros key' [= <-]. reflexivity.
    + intros P [= <-]. eauto.
  - split; intros ? H; discriminate H.
  - split; intros ? H; discriminate H.
Qed.

(** X25.  The protocol the transport signs with passes the key deriver's
    checks on the name: when trimming and lowering leave it as it is, the
    invoice number is 2-auth message signature- followed by the key ID for
    every key ID of 1 to 800 bytes, and an error for every other key ID. *)
Theorem auth_protocol_invoice (kd : KeyDeriver) (keyID : string) :
  ToLower (TrimSpace "auth message signature") = "auth message signature" ->
  (1 <= len keyID <= 800 ->
   computeInvoiceNumber kd DefaultAuthProtocol keyID
   = Ok ("2-auth message signature-" +:+ keyID)) /\
  (~ 1 <= len keyID <= 800 ->
   exists e, computeInvoiceNumber kd DefaultAuthProtocol keyID = Err e).
Proof.
  intros Hnorm. unfold computeInvoiceNumber. cbn [SecurityLevel ProtocolName DefaultAuthProtocol].
  rewrite Hnorm.
  change ((SecurityLevelEveryAppAndCounterparty <? 0)
          || (SecurityLevelEveryAppAndCounterparty >? 2)) with false. cbv iota.
  split.
  - intros [Hlo Hhi].
    destruct (len keyID >? 800) eqn:H1; [rewrite Z.gtb_gt in H1; lia |].
    destruct (len keyID <? 1) eqn:H2; [rewrite Z.ltb_lt in H2; lia |].
    reflexivity.
  - intros Hbad.
    destruct (len keyID >? 800) eqn:H1; [eauto |].
    destruct (len keyID <? 1) eqn:H2; [eauto |].
    rewrite Z.gtb_ltb, Z.ltb_ge in H1. rewrite Z.ltb_ge in H2. lia.
Qed.

End WithLibraries.
End KeyDerivationFacts.

(** ** The age-verification callback *)

Module AgeExampleFacts.
Import Encoding GoStrings HTTP AgeExample.

Section WithFmt.
Context {fm : Fmt}.

Lemma certificateVerifiesAge_spec (senderPublicKey : string)
    (cert : Wallet.VerifiableCertificate) :
  certificateVerifiesAge senderPublicKey cert = true <->
  Wallet.Subject (Wallet.Certificate_ cert) = senderPublicKey /\
  Wallet.Certifier (Wallet.Certificate_ cert) = trustedCertifier /\
  Wallet.Type_ (Wallet.Certificate_ cert) = "age-verification" /\
  exists v age, Wallet.Fields (Wallet.Certificate_ cert) !! "age" = Some v /\
                Atoi (Sprintf_v v) = Ok age /\ 18 <= age.
Proof.
  unfold certificateVerifiesAge.
  destruct (String.eqb_spec (Wallet.Subject (Wallet.Certificate_ cert)) senderPublicKey);
    cbn [negb]; [| split; [discriminate | tauto]].
  destruct (String.eqb_spec (Wallet.Certifier (Wallet.Certificate_ cert)) trustedCertifier);
    cbn [negb]; [| split; [discriminate | tauto]].
  destruct (String.eqb_spec (Wallet.Type_ (Wallet.Certificate_ cert)) "age-verification");
    cbn [negb]; [| split; [discriminate | tauto]].
  destruct (Wallet.Fields (Wallet.Certificate_ cert) !! "age") as [v |] eqn:Hf.
  - destruct (Atoi (Sprintf_v v)) as [age | err | p] eqn:Ha.
    + destruct (Z.ltb_spec age 18).
      * split; [discriminate |]. intros (_ & _ & _ & v' & age' & Hv & Ha' & Hge).
        inversion Hv; subst. rewrite Ha in Ha'. inversion Ha'; subst. lia.
      * split; [| reflexivity]. intros _.
        split; [assumption |]. split; [assumption |]. split; [assumption |].
        exists v, age. split; [reflexivity |]. split; [assumption | lia].
    + split; [discriminate |]. intros (_ & _ & _ & v' & age' & Hv & Ha' & _).
      inversion Hv; subst. rewrite Ha in Ha'. discriminate.
    + split; [discriminate |]. intros (_ & _ & _ & v' & age' & Hv & Ha' & _).
      inversion Hv; subst. rewrite Ha in Ha'. discriminate.
  - split; [discriminate |]. intros (_ & _ & _ & v' & age' & Hv & _). discriminate.
Qed.

(** X21.  The callback of the certificates example continues exactly when
    some certificate has the sender as subject, the trusted certifier, the
    type age-verification and an age field that parses to at least 18;
    otherwise it writes 403 and a message, and when it continues it writes
    nothing. *)
Theorem age_callback_continues_iff (senderPublicKey : string)
    (certs : list Wallet.VerifiableCertificate) (req : Request) :
  let out := onCertificatesReceived senderPublicKey certs req in
  (snd out = true <->
   exists cert v age,
     In cert certs /\
     Wallet.Subject (Wallet.Certificate_ cert) = senderPublicKey /\
     Wallet.Certifier (Wallet.Certificate_ cert) = trustedCertifier /\
     Wallet.Type_ (Wallet.Certificate_ cert) = "age-verification" /\
     Wallet.Fields (Wallet.Certificate_ cert) !! "age" = Some v /\
     Atoi (Sprintf_v v) = Ok age /\ 18 <= age) /\
  (snd out = true -> fst out = []) /\
  (snd out = false ->
   exists message, fst out = [Recorder.OpWriteHeader 403; Recorder.OpWrite message]).
Proof.
  intros out. subst out. unfold onCertificatesReceived.
  destruct certs as [| c0 rest].
  - cbn. split; [| split; [discriminate | eauto]].
    split; [discriminate |]. intros (cert & _ & _ & [] & _).
  - change (Z.of_nat (length (c0 :: rest)) =? 0) with
      (Z.of_nat (S (length rest)) =? 0).
    destruct (Z.eqb_spec (Z.of_nat (S (length rest))) 0) as [E | _]; [lia |].
    destruct (existsb (certificateVerifiesAge senderPublicKey) (c0 :: rest)) eqn:Hex;
      cbn [negb fst snd].
    + split; [| split; [reflexivity | discriminate]].
      split; [| reflexivity]. intros _.
      apply existsb_exists in Hex. destruct Hex as (cert & Hin & Hok).
      apply certificateVerifiesAge_spec in Hok.
      destruct Hok as (H1 & H2 & H3 & v & age & H4 & H5 & H6).
      exists cert, v, age. tauto.
    + split; [| split; [discriminate | eauto]].
      split; [discriminate |].
      intros (cert & v & age & Hin & H1 & H2 & H3 & H4 & H5 & H6).
      assert (Hok : certificateVerifiesAge senderPublicKey cert = true).
      { apply certificateVerifiesAge_spec.
        split; [assumption |]. split; [assumption |]. split; [assumption |].
        exists v, age. split; [assumption |]. split; [assumption | lia]. }
      assert (Hex' : existsb (certificateVerifiesAge senderPublicKey) (c0 :: rest) = true).
      { apply existsb_exists. eauto. }
      rewrite Hex in Hex'. discriminate.
Qed.

End WithFmt.
End AgeExampleFacts.

(** ** The transport and the middleware *)

Module MoreTransportFacts.
Import Encoding GoStrings HTTP TransportTypes SessionManager StateErr.
Import Transport Middleware Spec MoreSpec CodecFacts StringFacts TransportFacts.

Ltac unfold_monad :=
  unfold walletCreateNonce, walletVerifyNonce, walletGetPublicKey, walletCreateSignature,
    walletVerifySignature, timeNow, smGetSession, smAddSession, smUpdateSession in *;
  unfold bind, wrap, replaceErr, requireValid, liftR, deref, ret, fail, panic, modify in *.

Ltac run_step H :=
  match type of H with
  | context [match ?x with _ => _ end] =>
      lazymatch x with
      | context [match _ with _ => _ end] => fail
      | _ => destruct x eqn:?; cbv beta iota zeta in H; try discriminate H
      end
  | context [if ?x then _ else _] =>
      lazymatch x with
      | context [match _ with _ => _ end] => fail
      | _ => destruct x eqn:?; cbv beta iota zeta in H; try discriminate H
      end
  end.

Ltac run_all H :=
  repeat match type of H with
  | context [match ?x with _ => _ end] =>
      lazymatch x with
      | context [match _ with _ => _ end] => fail
      | _ => destruct x eqn:?; cbv beta iota zeta in H
      end
  | context [if ?x then _ else _] =>
      lazymatch x with
      | context [match _ with _ => _ end] => fail
      | _ => destruct x eqn:?; cbv beta iota zeta in H
      end
  end.

Lemma prefixed_ne (c d : ascii) (p q e : string) :
  c <> d -> String c p +:+ e <> String d q.
Proof. intros Hne H. rewrite app_cons in H. inversion H. contradiction. Qed.

Lemma checkHeaders_ok_iff (req : Request) :
  checkHeaders req = Ok tt <->
  (Get (ReqHeader req) versionHeader <> "" /\
   Get (ReqHeader req) identityKeyHeader <> "" /\
   Get (ReqHeader req) nonceHeader <> "" /\
   Get (ReqHeader req) yourNonceHeader <> "" /\
   Get (ReqHeader req) signatureHeader <> "" /\
   snd (base64_DecodeString (Get (ReqHeader req) nonceHeader)) = true /\
   snd (base64_DecodeString (Get (ReqHeader req) yourNonceHeader)) = true /\
   exists b, hex_DecodeString (Get (ReqHeader req) signatureHeader) = Some b).
Proof.
  destruct (checkHeaders_spec req) as [[Hbad [e He]] | [Hgood Hok]].
  - split; [rewrite He; discriminate |].
    intros (H1 & H2 & H3 & H4 & H5 & H6 & H7 & [b H8]). exfalso.
    unfold malformedAuthHeaders, missing, notBase64, notHex in Hbad.
    destruct Hbad as [H | [H | [H | [H | [H | [H | [H | H]]]]]]]; congruence.
  - split; [intros _ | intros _; exact Hok].
    unfold malformedAuthHeaders, missing, notBase64, notHex in Hgood.
    repeat split; try (intros H; apply Hgood; tauto).
    + destruct (snd (base64_DecodeString (Get (ReqHeader req) nonceHeader))) eqn:E;
        [reflexivity | exfalso; apply Hgood; tauto].
    + destruct (snd (base64_DecodeString (Get (ReqHeader req) yourNonceHeader))) eqn:E;
        [reflexivity | exfalso; apply Hgood; tauto].
    + destruct (hex_DecodeString (Get (ReqHeader req) signatureHeader)) eqn:E;
        [eauto | exfalso; apply Hgood; tauto].
Qed.

Section WithCollaborators.
Context {ec : EC} {wi : @Wallet.WalletInterface ec} {cd : Codecs}.

(** X2.  [handleInitialRequest] fails with the missing-fields error, and
    leaves the world as it was, exactly when the identity key and the
    initial nonce are both empty. *)
Theorem handleInitialRequest_missing_fields (t : Transport) (msg : AuthMessage) (w : World) :
  (IdentityKey msg = "" /\ InitialNonce msg = "") <->
  handleInitialRequest t msg w = (Err "missing required fields in initial request", w).
Proof.
  split.
  - intros [H1 H2]. unfold handleInitialRequest. rewrite H1, H2. reflexivity.
  - intros H. unfold handleInitialRequest in H.
    destruct (String.eqb_spec (IdentityKey msg) "") as [H1 | H1];
    destruct (String.eqb_spec (InitialNonce msg) "") as [H2 | H2];
      cbn [andb] in H; [tauto | | |]; exfalso;
      unfold createNonGeneralAuthSignature, createSignature in H; unfold_monad;
      repeat run_step H;
      inversion H as [[He Hw]];
      try (revert He; apply prefixed_ne; discriminate).
Qed.

Lemma GetSession_AddSession_nonce (s : PeerSession) (n : string) (sm : SessionManager) :
  SessionNonce s = Some n -> GetSession n (AddSession s sm) = Some s.
Proof.
  intros H. unfold GetSession, AddSession. cbn [sessionNonceToSession]. rewrite H.
  now rewrite lookup_insert_eq.
Qed.

(** X3.  When one of the two fields is there and the wallet issues a nonce,
    [handleInitialRequest] has stored the session under that nonce whatever
    happens afterwards: a handshake that fails at the signature or at the
    identity key leaves its session behind. *)
Theorem handleInitialRequest_stores_session (t : Transport) (msg : AuthMessage) (w : World)
    (n : string) (ws : Wallet.WalletState) :
  ~ (IdentityKey msg = "" /\ InitialNonce msg = "") ->
  Wallet.CreateNonce (wallet w) = (Ok n, ws) ->
  let w' := snd (handleInitialRequest t msg w) in
  sessionManager w' = AddSession (sessionFor t msg n (clock w)) (sessionManager w) /\
  GetSession n (sessionManager w') = Some (sessionFor t msg n (clock w)).
Proof.
  intros Hne Hn w'.
  assert (Hsm : sessionManager w'
                = AddSession (sessionFor t msg n (clock w)) (sessionManager w)).
  { unfold w', handleInitialRequest, sessionFor.
    destruct (String.eqb_spec (IdentityKey msg) "") as [H1 | H1];
    destruct (String.eqb_spec (InitialNonce msg) "") as [H2 | H2];
      cbn [andb]; [tauto | | |];
      unfold createNonGeneralAuthSignature, createSignature; unfold_monad;
      rewrite Hn; cbv beta iota zeta;
      repeat match goal with
      | |- context [match ?x with _ => _ end] =>
          lazymatch x with
          | context [match _ with _ => _ end] => fail
          | _ => destruct x eqn:?; cbv beta iota zeta
          end
      end; reflexivity. }
  split; [exact Hsm |]. rewrite Hsm. now apply GetSession_AddSession_nonce.
Qed.

(** X4.  A successful [handleInitialRequest]: the wallet is asked for a
    nonce, a signature and the identity key, in that order; the signature
    is over the base64 text of the client's nonce followed by the session
    nonce, with that concatenation as key ID and the client's key as
    counterparty; the reply is an initialResponse that carries the session
    nonce as its initial nonce and echoes the client's nonce; the session is
    found under the session nonce; the response writer is not touched. *)
Theorem handleInitialRequest_ok (t : Transport) (msg m : AuthMessage) (w w' : World) :
  handleInitialRequest t msg w = (Ok m, w') ->
  exists n key args pk,
    PublicKeyFromString (IdentityKey msg) = Ok key /\
    Wallet.csEncryptionArgs args = baseArgs (InitialNonce msg +:+ n) key /\
    Wallet.csData args =
      list_byte_of_string
        (base64_EncodeToString (list_byte_of_string (InitialNonce msg +:+ n))) /\
    trace w' = trace w ++ [EvCreateNonce; EvCreateSignature args;
                           EvGetPublicKey identityKeyArgs] /\
    Version m = AuthVersion /\ MessageType m = InitialResponse /\
    IdentityKey m = ToDERHex (Wallet.PublicKey pk) /\
    InitialNonce m = n /\ YourNonce m = Some (InitialNonce msg) /\
    Nonce m = None /\ Signature m <> None /\
    RequestedCertificates m =
      match certificateRequirements t with
      | Some reqs => reqs | None => zeroRequestedCertificateSet end /\
    GetSession n (sessionManager w') = Some (sessionFor t msg n (clock w)) /\
    res w' = res w.
Proof.
  intros H. unfold handleInitialRequest in H.
  unfold createNonGeneralAuthSignature, createSignature in H. unfold_monad.
  repeat run_step H.
  all: inversion H; subst; clear H.
  all: unfold sessionFor.
  all: cbn [sessionManager logEvent setWallet setRes setSessionManager trace res clock
            Version MessageType IdentityKey InitialNonce YourNonce Nonce Signature
            RequestedCertificates].
  all: do 2 eexists.
  all: eexists {| Wallet.csEncryptionArgs := _; Wallet.csData := _;
                  Wallet.DashToDirectlySign := [] |}.
  all: eexists.
  all: repeat match goal with |- _ /\ _ => split end;
       try eassumption; try reflexivity; try discriminate.
  all: cbn [Wallet.csEncryptionArgs Wallet.csData]; try reflexivity.
  all: try (rewrite <- !app_assoc; reflexivity).
  all: match goal with E : certificateRequirements _ = _ |- _ => rewrite E end.
  all: apply GetSession_AddSession_nonce; reflexivity.
Qed.

(** X5.  With a supported version, an initialResponse or a
    certificateRequest is refused as not implemented and any message type
    outside the five known ones as unsupported; the world is left as it
    was. *)
Theorem handleIncomingMessage_not_dispatched (t : Transport) (msg : AuthMessage)
    (req : Request) (w : World) :
  Version msg = AuthVersion ->
  (MessageType msg = InitialResponse \/ MessageType msg = CertificateRequest ->
   handleIncomingMessage t msg req w = (Err "not implemented", w)) /\
  (MessageType msg <> InitialRequest -> MessageType msg <> CertificateResponse ->
   MessageType msg <> InitialResponse -> MessageType msg <> CertificateRequest ->
   MessageType msg <> General ->
   handleIncomingMessage t msg req w = (Err "unsupported message type", w)).
Proof.
  intros Hv. unfold handleIncomingMessage. rewrite Hv.
  change (negb (String.eqb AuthVersion AuthVersion)) with false. cbv iota.
  split.
  - intros [-> | ->]; reflexivity.
  - intros H1 H2 H3 H4 H5.
    repeat match goal with
    | |- context [String.eqb (MessageType msg) ?c] =>
        destruct (String.eqb_spec (MessageType msg) c); [contradiction |]
    end.
    reflexivity.
Qed.

(** X6.  A POST to /.well-known/auth whose body decodes to a
    certificateResponse without yourNonce makes the middleware panic: the
    nil pointer is dereferenced before anything is checked. *)
Theorem certificateResponse_without_yourNonce_panics (t : Transport)
    (next : NextHandler) (rw : ResponseWriter) (req : Request) (msg : AuthMessage)
    (w : World) :
  Method req = MethodPost -> URLPath req = "/.well-known/auth" ->
  json_Decode_AuthMessage (ReqBody req) = Ok msg ->
  Version msg = AuthVersion -> MessageType msg = CertificateResponse ->
  YourNonce msg = None ->
  exists p, Handler t next rw req w = (Panic p, setRes (newRecorder rw) w).
Proof.
  intros Hm Hp Hd Hv Hty Hy.
  unfold Handler. rewrite Hm, Hp.
  change (String.eqb MethodPost MethodPost
          && String.eqb "/.well-known/auth" "/.well-known/auth") with true. cbv iota.
  unfold HandleNonGeneralRequest, parseAuthMessage. rewrite Hd.
  unfold bind at 1. unfold liftR. cbv beta iota.
  unfold bind at 1. unfold handleIncomingMessage. rewrite Hv, Hty.
  change (negb (String.eqb AuthVersion AuthVersion)) with false.
  change (String.eqb CertificateResponse InitialRequest) with false.
  change (String.eqb CertificateResponse CertificateResponse) with true.
  cbv iota. unfold handleCertificateResponse. rewrite Hy.
  unfold bind at 1. unfold deref, panic. cbv beta iota. eauto.
Qed.


(** X7.  A general request for a session that is not authenticated, while
    unauthenticated requests are not allowed, is refused after the nonce
    check alone: no signature is verified, no session is touched, and the
    error says that no certificates were provided when certificates are
    required and that the session is not authenticated otherwise. *)
Theorem handleGeneralRequest_unauthenticated_session (t : Transport) (msg : AuthMessage)
    (w : World) (yourNonce : string) (ws : Wallet.WalletState) (session : PeerSession) :
  YourNonce msg = Some yourNonce ->
  Wallet.VerifyNonce yourNonce (wallet w) = (Ok true, ws) ->
  GetSession yourNonce (sessionManager w) = Some session ->
  IsAuthenticated session = false ->
  allowUnauthenticated t = false ->
  handleGeneralRequest t msg w =
    (Err match certificateRequirements t with
         | Some _ => "no certificates provided"
         | None => "session not authenticated"
         end,
     logEvent (EvVerifyNonce yourNonce) (setWallet ws w)).
Proof.
  intros Hy Hn Hs Ha Hm. unfold handleGeneralRequest. rewrite Hy.
  unfold_monad. rewrite Hn. cbv beta iota zeta.
  cbn [sessionManager logEvent setWallet]. rewrite Hs, Ha, Hm. cbn [negb andb].
  destruct (certificateRequirements t); reflexivity.
Qed.

(** X8.  [handleGeneralRequest] changes the sessions only after the nonce
    and the signature were verified, and then only replaces the session it
    looked up by a copy with a new time stamp: the authentication flag, the
    nonces and the peer's key stay as they were. *)
Theorem handleGeneralRequest_sessions (t : Transport) (msg : AuthMessage) (w : World) :
  let w' := snd (handleGeneralRequest t msg w) in
  sessionManager w' = sessionManager w \/
  exists yourNonce session ws1 args vr ws2,
    YourNonce msg = Some yourNonce /\
    Wallet.VerifyNonce yourNonce (wallet w) = (Ok true, ws1) /\
    GetSession yourNonce (sessionManager w) = Some session /\
    Wallet.VerifySignature args ws1 = (Ok vr, ws2) /\ Wallet.Valid vr = true /\
    Wallet.KeyID (Wallet.vsEncryptionArgs args)
      = match Nonce msg with Some n => n | None => "" end +:+ " " +:+ yourNonce /\
    sessionManager w'
      = AddSession (touched (IsAuthenticated session) (clock w) session) (sessionManager w).
Proof.
  intros w'. destruct (handleGeneralRequest t msg w) as [r w1] eqn:H. subst w'.
  cbn [snd]. unfold handleGeneralRequest in H. unfold_monad.
  repeat run_step H.
  all: inversion H; subst; clear H.
  all: cbn [wallet sessionManager logEvent setWallet setRes setSessionManager clock] in *.
  all: try (left; reflexivity).
  all: right; do 3 eexists.
  all: eexists {| Wallet.vsEncryptionArgs := _; Wallet.vsData := _;
                  Wallet.HashToDirectlyVerify := []; Wallet.vsSignature := _;
                  Wallet.vsForSelf := false |}.
  all: do 2 eexists.
  all: repeat match goal with |- _ /\ _ => split end; try eassumption; try reflexivity.
  all: unfold touched, UpdateSession.
  all: match goal with E : PeerIdentityKey _ = _ |- _ => rewrite E end; reflexivity.
Qed.

(** X9.  The reply of a successful [handleGeneralRequest]: a general message
    with a fresh nonce of the wallet and the peer nonce of the session as
    yourNonce, without signature or payload; the wallet was asked to verify
    the nonce, verify the signature, create a nonce and give the identity
    key, in that order. *)
Theorem handleGeneralRequest_reply (t : Transport) (msg m : AuthMessage) (w w' : World) :
  handleGeneralRequest t msg w = (Ok m, w') ->
  exists yourNonce session args nonce ws ws' pk,
    YourNonce msg = Some yourNonce /\
    GetSession yourNonce (sessionManager w) = Some session /\
    trace w' = trace w ++ [EvVerifyNonce yourNonce; EvVerifySignature args;
                           EvCreateNonce; EvGetPublicKey identityKeyArgs] /\
    Wallet.CreateNonce ws = (Ok nonce, ws') /\
    m = {| Version := AuthVersion; MessageType := General;
           IdentityKey := ToDERHex (Wallet.PublicKey pk);
           InitialNonce := ""; Nonce := Some nonce;
           YourNonce := PeerNonce session;
           Signature := None; Payload := None;
           RequestedCertificates := zeroRequestedCertificateSet;
           Certificates := None |}.
Proof.
  intros H. unfold handleGeneralRequest in H. unfold_monad.
  repeat run_step H.
  all: inversion H; subst; clear H.
  all: cbn [wallet sessionManager logEvent setWallet setRes setSessionManager clock
            trace PeerNonce] in *.
  all: do 2 eexists.
  all: eexists {| Wallet.vsEncryptionArgs := _; Wallet.vsData := _;
                  Wallet.HashToDirectlyVerify := []; Wallet.vsSignature := _;
                  Wallet.vsForSelf := false |}.
  all: do 4 eexists.
  all: repeat match goal with |- _ /\ _ => split end; try eassumption; try reflexivity.
  all: rewrite <- !app_assoc; reflexivity.
Qed.


Lemma hex_digit_round_trip (x : byte) :
  fromHexChar (hexDigit (Z_of_byte x / 16)) = Some (Z_of_byte x / 16) /\
  fromHexChar (hexDigit (Z_of_byte x mod 16)) = Some (Z_of_byte x mod 16) /\
  byte_of_Z (16 * (Z_of_byte x / 16) + Z_of_byte x mod 16) = x.
Proof. destruct x; vm_compute; repeat split. Qed.

Lemma hex_round_trip (b : list byte) :
  hex_DecodeString (hex_EncodeToString b) = Some b.
Proof.
  induction b as [| x r IH]; [reflexivity |].
  cbn [hex_EncodeToString hex_DecodeString].
  destruct (hex_digit_round_trip x) as (-> & -> & ->). now rewrite IH.
Qed.

Lemma Get_fold_SetHeader (hs : list (string * string)) (r : Recorder.ResponseRecorder)
    (k : string) :
  Get (header (Recorder.ResponseWriter_
         (fold_left (fun r kv => Recorder.SetHeader (fst kv) (snd kv) r) hs r))) k
  = match List.find (fun kv => String.eqb (lower (fst kv)) (lower k)) (rev hs) with
    | Some kv => snd kv
    | None => Get (header (Recorder.ResponseWriter_ r)) k
    end.
Proof.
  revert r. induction hs as [| kv hs IH] using rev_ind; intros r; [reflexivity |].
  rewrite fold_left_app, rev_app_distr. cbn [fold_left rev app List.find].
  unfold Recorder.SetHeader at 1. cbn [Recorder.ResponseWriter_].
  unfold rwSetHeader, Get, Set_. cbn [header].
  destruct (String.eqb_spec (lower (fst kv)) (lower k)) as [E | E].
  - rewrite E, lookup_insert_eq. reflexivity.
  - rewrite lookup_insert_ne by exact E. apply IH.
Qed.

Lemma HandleResponse_frame (t : Transport) (req : option Request)
    (body : list byte) (status : Z) (msg : option AuthMessage) (w : World) :
  let out := HandleResponse t req body status msg w in
  sessionManager (snd out) = sessionManager w /\
  Recorder.body (res (snd out)) = Recorder.body (res w) /\
  Recorder.statusCode (res (snd out)) = Recorder.statusCode (res w) /\
  ((exists m, fst out = Ok m) \/ res (snd out) = res w).
Proof.
  intros out. destruct (HandleResponse t req body status msg w) as [r w'] eqn:H.
  subst out. cbn [fst snd].
  unfold HandleResponse, createSignature, setupHeaders, getValuesFromContext in H.
  unfold_monad. run_all H.
  all: inversion H; subst; clear H.
  all: cbn [sessionManager res logEvent setWallet setRes setSessionManager].
  all: try (repeat split; eauto; fail).
  all: match goal with
       | |- context [fold_left _ ?hs ?r] =>
           destruct (body_fold_SetHeader hs r) as (Hb & Hc & _)
       end.
  all: rewrite Hb, Hc; repeat split; eauto.
Qed.

(** X11.  After a successful [HandleResponse] the response carries the
    version, message type and identity key of the message it was given, its
    nonces when they are set, the request ID of the context for a general
    message, and a signature header that decodes back to the signature
    stored in the message. *)
Theorem HandleResponse_headers (t : Transport) (r : Request) (body : list byte)
    (status : Z) (msg m : AuthMessage) (w w' : World) :
  allowUnauthenticated t = false ->
  HandleResponse t (Some r) body status (Some msg) w = (Ok (Some m), w') ->
  let h := header (Recorder.ResponseWriter_ (res w')) in
  exists sig,
    Signature m = Some sig /\
    hex_DecodeString (Get h signatureHeader) = Some sig /\
    Get h versionHeader = Version msg /\
    Get h messageTypeHeader = MessageType msg /\
    Get h identityKeyHeader = IdentityKey msg /\
    (MessageType msg = General -> Some (Get h requestIDHeader) = ctxRequestID r) /\
    (forall n, Nonce msg = Some n -> Get h nonceHeader = n) /\
    (forall n, YourNonce msg = Some n -> Get h yourNonceHeader = n).
Proof.
  intros Hmode H h. subst h. unfold HandleResponse in H. rewrite Hmode in H.
  unfold createSignature, setupHeaders, getValuesFromContext in H. unfold_monad.
  repeat run_step H.
  all: inversion H; subst; clear H; cbn [fst snd] in *.
  all: cbn [res logEvent setWallet setRes setSessionManager Signature].
  all: eexists; split; [reflexivity |].
  all: rewrite !Get_fold_SetHeader.
  all: unfold responseHeaders;
       cbn [Version MessageType IdentityKey Nonce YourNonce Signature].
  all: destruct (String.eqb_spec (MessageType msg) General) as [Hg | Hg];
       destruct (Nonce msg) as [n1 |]; destruct (YourNonce msg) as [n2 |].
  all: cbn [app rev List.find fst snd].
  all: repeat match goal with
       | |- context [String.eqb (lower ?a) (lower ?b)] =>
           let v := eval vm_compute in (String.eqb (lower a) (lower b)) in
           change (String.eqb (lower a) (lower b)) with v
       end; cbv iota.
  all: repeat split; try reflexivity; try apply hex_round_trip;
       try congruence.
  all: try (intros n E; inversion E; reflexivity).
  all: unfold Get, Recorder.SetHeader, rwSetHeader, Set_;
       cbn [Recorder.ResponseWriter_ header].
  all: repeat (rewrite lookup_insert_ne by (vm_compute; discriminate)).
  all: rewrite lookup_insert_eq; reflexivity.
Qed.


Lemma servedRequests_app (a b : list Event) :
  servedRequests (a ++ b) = servedRequests a ++ servedRequests b.
Proof. unfold servedRequests. apply flat_map_app. Qed.

Lemma handleGeneralRequest_quiet (t : Transport) (msg : AuthMessage) (w : World) :
  res (snd (handleGeneralRequest t msg w)) = res w /\
  servedRequests (trace (snd (handleGeneralRequest t msg w))) = servedRequests (trace w).
Proof.
  destruct (handleGeneralRequest t msg w) as [r w'] eqn:H. cbn [snd].
  unfold handleGeneralRequest in H. unfold_monad. run_all H.
  all: inversion H; subst; clear H.
  all: cbn [res trace logEvent setWallet setRes setSessionManager].
  all: rewrite ?servedRequests_app; cbn [servedRequests flat_map app];
       rewrite ?app_nil_r; split; reflexivity.
Qed.

Lemma handleInitialRequest_quiet (t : Transport) (msg : AuthMessage) (w : World) :
  res (snd (handleInitialRequest t msg w)) = res w.
Proof.
  destruct (handleInitialRequest t msg w) as [r w'] eqn:H. cbn [snd].
  unfold handleInitialRequest, createNonGeneralAuthSignature, createSignature in H.
  unfold_monad. run_all H.
  all: inversion H; subst; clear H.
  all: reflexivity.
Qed.

Lemma handleCertificateResponse_quiet (t : Transport) (msg : AuthMessage) (req : Request)
    (w : World) :
  onCertificatesReceived t = None ->
  res (snd (handleCertificateResponse t msg req w)) = res w.
Proof.
  intros Hcb.
  destruct (handleCertificateResponse t msg req w) as [r w'] eqn:H. cbn [snd].
  unfold handleCertificateResponse, createNonGeneralAuthSignature, createSignature in H.
  rewrite Hcb in H.
  unfold_monad. run_all H.
  all: inversion H; subst; clear H.
  all: reflexivity.
Qed.

Lemma handleIncomingMessage_quiet (t : Transport) (msg : AuthMessage) (req : Request)
    (w : World) :
  onCertificatesReceived t = None ->
  res (snd (handleIncomingMessage t msg req w)) = res w.
Proof.
  intros Hcb. unfold handleIncomingMessage.
  repeat match goal with
  | |- context [if ?b then _ else _] => destruct b
  end; try reflexivity.
  - unfold bind, ret.
    pose proof (handleInitialRequest_quiet t msg w) as Hq.
    destruct (handleInitialRequest t msg w) as [[m | e | p] w1]; exact Hq.
  - now apply handleCertificateResponse_quiet.
  - unfold bind, ret.
    pose proof (proj1 (handleGeneralRequest_quiet t msg w)) as Hq.
    destruct (handleGeneralRequest t msg w) as [[m | e | p] w1]; exact Hq.
Qed.

Lemma HandleGeneralRequest_quiet (t : Transport) (req : Request) (w : World) :
  res (snd (HandleGeneralRequest t req w)) = res w /\
  servedRequests (trace (snd (HandleGeneralRequest t req w))) = servedRequests (trace w).
Proof.
  unfold HandleGeneralRequest.
  destruct (String.eqb (Get (ReqHeader req) requestIDHeader) "").
  - destruct (allowUnauthenticated t); split; reflexivity.
  - unfold bind, liftR, ret.
    destruct (checkHeaders req); try (split; reflexivity).
    destruct (buildAuthMessageFromRequest req) as [m | e1 | p1] eqn:Hb;
      try (split; reflexivity).
    destruct (buildAuthMessageFromRequest_fields _ _ Hb) as (Hty & _).
    rewrite (handleIncomingMessage_general _ _ _ _ Hty).
    destruct (negb (String.eqb (Version m) AuthVersion)); [split; reflexivity |].
    pose proof (handleGeneralRequest_quiet t m w) as Hq.
    destruct (handleGeneralRequest t m w) as [[r | e | p] w1]; exact Hq.
Qed.

(** X12.  Whatever the reason [HandleGeneralRequest] refuses a request for,
    the middleware answers 401, does not call the next handler and sends no
    body: the error text stays in the recorder. *)
Theorem rejected_request_answered_401_without_body
    (t : Transport) (next : NextHandler) (rw : ResponseWriter) (req : Request)
    (w w1 : World) (e : string) :
  isGeneral req ->
  HandleGeneralRequest t req (setRes (newRecorder rw) w) = (Err e, w1) ->
  status rw = None ->
  let out := Handler t next rw req w in
  fst out = Ok tt /\
  clientStatus (snd out) = Some StatusUnauthorized /\
  clientBody (snd out) = sent rw /\
  Recorder.body (res (snd out))
    = list_byte_of_string (e +:+ String (ascii_of_nat 10) EmptyString) /\
  servedRequests (trace (snd out)) = servedRequests (trace w).
Proof.
  intros Hgen Hrej Hfresh out. subst out. unfold Handler.
  unfold isGeneral in Hgen. rewrite Hgen, Hrej.
  destruct (HandleGeneralRequest_quiet t req (setRes (newRecorder rw) w)) as [Hres Htr].
  rewrite Hrej in Hres, Htr. cbn [snd res setRes trace] in Hres, Htr.
  unfold clientStatus, clientBody. cbn [fst snd res setRes trace]. rewrite Hres.
  destruct (httpError_status e StatusUnauthorized (newRecorder rw) Hfresh) as [-> ->].
  repeat split; try reflexivity. exact Htr.
Qed.





(** X15.  With no certificates callback configured, an error of the
    handshake endpoint never reaches the client: the answer is 200 with no
    body and no header added. *)
Theorem handshake_errors_are_not_reported
    (t : Transport) (next : NextHandler) (rw : ResponseWriter) (req : Request)
    (w w1 : World) (e : string) :
  Method req = MethodPost -> URLPath req = "/.well-known/auth" ->
  HandleNonGeneralRequest t req (setRes (newRecorder rw) w) = (Err e, w1) ->
  onCertificatesReceived t = None ->
  status rw = None ->
  let out := Handler t next rw req w in
  fst out = Ok tt /\
  clientStatus (snd out) = Some StatusOK /\
  clientBody (snd out) = sent rw /\
  header (Recorder.ResponseWriter_ (res (snd out))) = header rw.
Proof.
  intros Hm Hp Herr Hcb Hfresh out. subst out. unfold Handler. rewrite Hm, Hp.
  change (String.eqb MethodPost MethodPost
          && String.eqb "/.well-known/auth" "/.well-known/auth") with true. cbv iota.
  rewrite Herr. cbn [fst snd].
  assert (Hres : res w1 = newRecorder rw).
  { unfold HandleNonGeneralRequest in Herr. unfold bind at 1 in Herr. unfold liftR in Herr.
    destruct (parseAuthMessage req) as [m | e1 | p1];
      [| inversion Herr; reflexivity | discriminate].
    unfold bind at 1 in Herr.
    pose proof (handleIncomingMessage_quiet t m req (setRes (newRecorder rw) w) Hcb) as Hq.
    destruct (handleIncomingMessage t m req (setRes (newRecorder rw) w))
      as [[r | e1 | p1] w2]; cbn [snd] in Hq.
    - exfalso. destruct r as [r |]; unfold setupHeaders, setupContent in Herr;
        unfold_monad; [| discriminate].
      destruct (json_Marshal_AuthMessage r); discriminate.
    - inversion Herr; subst. exact Hq.
    - discriminate. }
  unfold clientStatus, clientBody. cbn [res setRes]. rewrite Hres.
  unfold Recorder.flush, rwWrite, rwWriteHeader, newRecorder.
  cbn [Recorder.ResponseWriter_ Recorder.body status sent header]. rewrite Hfresh.
  cbn [status sent header]. rewrite app_nil_r. repeat split; reflexivity.
Qed.









Ltac wf_sessions Hwf :=
  let s := fresh "s" in let Hs := fresh "Hs" in
  intros s Hs;
  cbn [sessionManager logEvent setWallet setRes setSessionManager clock] in Hs;
  unfold UpdateSession in Hs;
  first
    [ exact (Hwf s Hs)
    | apply stored_AddSession in Hs; destruct Hs as [-> | Hs]; [| exact (Hwf s Hs)];
      unfold wellFormedSession; cbn [SessionNonce PeerNonce PeerIdentityKey];
      first
        [ repeat split; discriminate
        | match goal with
          | Hg : GetSession _ _ = Some ?p |- _ =>
              let H1 := fresh in let H2 := fresh in let H3 := fresh in
              destruct (Hwf p (GetSession_stored _ _ _ Hg)) as (H1 & H2 & H3);
              repeat split; congruence
          end ] ].

Lemma handleInitialRequest_wf t msg w :
  sessionsWellFormed (sessionManager w) ->
  sessionsWellFormed (sessionManager (snd (handleInitialRequest t msg w))).
Proof.
  intros Hwf. destruct (handleInitialRequest t msg w) as [r w'] eqn:H. cbn [snd].
  unfold handleInitialRequest, createNonGeneralAuthSignature, createSignature in H.
  unfold_monad. run_all H.
  all: inversion H; subst; clear H.
  all: wf_sessions Hwf.
Qed.

Lemma handleGeneralRequest_wf t msg w :
  sessionsWellFormed (sessionManager w) ->
  sessionsWellFormed (sessionManager (snd (handleGeneralRequest t msg w))).
Proof.
  intros Hwf. destruct (handleGeneralRequest t msg w) as [r w'] eqn:H. cbn [snd].
  unfold handleGeneralRequest in H. unfold_monad. run_all H.
  all: inversion H; subst; clear H.
  all: cbn [sessionManager logEvent setWallet setRes setSessionManager] in *.
  all: wf_sessions Hwf.
Qed.

Lemma handleCertificateResponse_wf t msg req w :
  sessionsWellFormed (sessionManager w) ->
  sessionsWellFormed (sessionManager (snd (handleCertificateResponse t msg req w))).
Proof.
  intros Hwf. destruct (handleCertificateResponse t msg req w) as [r w'] eqn:H. cbn [snd].
  unfold handleCertificateResponse, createNonGeneralAuthSignature, createSignature in H.
  unfold_monad. run_all H.
  all: inversion H; subst; clear H.
  all: cbn [sessionManager logEvent setWallet setRes setSessionManager] in *.
  all: wf_sessions Hwf.
Qed.

Lemma handleIncomingMessage_wf t msg req w :
  sessionsWellFormed (sessionManager w) ->
  sessionsWellFormed (sessionManager (snd (handleIncomingMessage t msg req w))).
Proof.
  intros Hwf. unfold handleIncomingMessage.
  repeat match goal with
  | |- context [if ?b then _ else _] => destruct b
  end; try exact Hwf.
  - unfold bind, ret. pose proof (handleInitialRequest_wf t msg w Hwf) as Hq.
    destruct (handleInitialRequest t msg w) as [[m | e | p] w1]; exact Hq.
  - now apply handleCertificateResponse_wf.
  - unfold bind, ret. pose proof (handleGeneralRequest_wf t msg w Hwf) as Hq.
    destruct (handleGeneralRequest t msg w) as [[m | e | p] w1]; exact Hq.
Qed.

Lemma HandleNonGeneralRequest_wf t req w :
  sessionsWellFormed (sessionManager w) ->
  sessionsWellFormed (sessionManager (snd (HandleNonGeneralRequest t req w))).
Proof.
  intros Hwf. unfold HandleNonGeneralRequest. unfold bind at 1. unfold liftR.
  destruct (parseAuthMessage req) as [m | e | p]; try exact Hwf.
  unfold bind at 1. pose proof (handleIncomingMessage_wf t m req w Hwf) as Hq.
  destruct (handleIncomingMessage t m req w) as [[[r |] | e | p] w1]; try exact Hq.
  unfold setupHeaders, setupContent, bind, modify, ret.
  destruct (json_Marshal_AuthMessage r); exact Hq.
Qed.

Lemma HandleGeneralRequest_wf t req w :
  sessionsWellFormed (sessionManager w) ->
  sessionsWellFormed (sessionManager (snd (HandleGeneralRequest t req w))).
Proof.
  intros Hwf. unfold HandleGeneralRequest.
  destruct (String.eqb (Get (ReqHeader req) requestIDHeader) "").
  { destruct (allowUnauthenticated t); exact Hwf. }
  unfold bind, liftR, ret.
  destruct (checkHeaders req); try exact Hwf.
  destruct (buildAuthMessageFromRequest req) as [m | e | p]; try exact Hwf.
  pose proof (handleIncomingMessage_wf t m req w Hwf) as Hq.
  destruct (handleIncomingMessage t m req w) as [[r | e | p] w1]; exact Hq.
Qed.

Lemma Handler_wf t next rw req w :
  sessionsWellFormed (sessionManager w) ->
  sessionsWellFormed (sessionManager (snd (Handler t next rw req w))).
Proof.
  intros Hwf. unfold Handler.
  destruct (String.eqb (Method req) MethodPost
            && String.eqb (URLPath req) "/.well-known/auth").
  - pose proof (HandleNonGeneralRequest_wf t req (setRes (newRecorder rw) w) Hwf) as Hq.
    destruct (HandleNonGeneralRequest t req (setRes (newRecorder rw) w))
      as [[[] | e | p] w1]; exact Hq.
  - pose proof (HandleGeneralRequest_wf t req (setRes (newRecorder rw) w) Hwf) as Hq.
    destruct (HandleGeneralRequest t req (setRes (newRecorder rw) w))
      as [[[req' authMsg] | e | p] w1]; try exact Hq.
    cbv zeta.
    destruct (HandleResponse_frame t req'
                (Recorder.body (res (serveNext next req' w1)))
                (Recorder.statusCode (res (serveNext next req' w1))) authMsg
                (serveNext next req' w1)) as (Hsm & _).
    destruct (HandleResponse t req' _ _ authMsg (serveNext next req' w1))
      as [[y | e | p] w3]; cbn [snd sessionManager setRes] in *;
      rewrite Hsm; exact Hq.
Qed.

(** X17.  No operation of the transport stores a session with a nil session
    nonce, peer nonce or peer identity key. *)
Theorem sessions_hold_no_nil_pointer (t : Transport) (ops : list Operation) (w : World) :
  sessionsWellFormed (sessionManager w) ->
  sessionsWellFormed (sessionManager (performAll t ops w)).
Proof.
  unfold performAll. revert w.
  induction ops as [| op ops IH]; intros w Hwf; cbn [fold_left]; [exact Hwf |].
  apply IH. destruct op as [req | req | req body st msg | msg req | next rw req | now];
    cbn [perform sessionManager].
  - now apply HandleNonGeneralRequest_wf.
  - now apply HandleGeneralRequest_wf.
  - now rewrite (proj1 (HandleResponse_frame t req body st msg w)).
  - now apply handleIncomingMessage_wf.
  - now apply Handler_wf.
  - exact Hwf.
Qed.


(** X18.  [handleCertificateResponse] returns neither a message nor an
    error exactly on this path: a callback is configured, it was run for the
    peer of the session found under the message's identity key after the
    nonce and the signature were verified, and it did not continue.  Then the
    sessions are as before and the response holds what the callback wrote. *)
Theorem handleCertificateResponse_declined (t : Transport) (msg : AuthMessage)
    (req : Request) (w w' : World) :
  handleCertificateResponse t msg req w = (Ok None, w') ->
  exists callback certs session peer ops yourNonce args,
    onCertificatesReceived t = Some callback /\
    Certificates msg = Some certs /\
    GetSession (IdentityKey msg) (sessionManager w) = Some session /\
    PeerIdentityKey session = Some peer /\
    callback peer certs req = (ops, false) /\
    sessionManager w' = sessionManager w /\
    res w' = Recorder.applyOps ops (res w) /\
    trace w' = trace w ++ [EvVerifyNonce yourNonce; EvVerifySignature args;
                           EvCertificatesReceived peer false].
Proof.
  intros H. unfold handleCertificateResponse in H.
  unfold createNonGeneralAuthSignature, createSignature in H. unfold_monad.
  repeat run_step H.
  all: inversion H; subst; clear H.
  all: cbn [wallet sessionManager logEvent setWallet setRes setSessionManager clock
            trace res] in *.
  all: match goal with Hn : negb _ = true |- _ => apply negb_true_iff in Hn; subst end.
  all: do 6 eexists.
  all: eexists {| Wallet.vsEncryptionArgs := _; Wallet.vsData := _;
                  Wallet.HashToDirectlyVerify := []; Wallet.vsSignature := _;
                  Wallet.vsForSelf := false |}.
  all: repeat match goal with |- _ /\ _ => split end; try eassumption; try reflexivity.
  all: rewrite <- !app_assoc; reflexivity.
Qed.

(** X19.  A [handleCertificateResponse] that answers has authenticated the
    session found under the message's identity key, after the callback, if
    one is configured, continued; the reply is a certificateResponse that
    echoes the session's peer nonce and is signed under the message's
    initial nonce followed by the session nonce. *)
Theorem handleCertificateResponse_authenticates (t : Transport) (msg m : AuthMessage)
    (req : Request) (w w' : World) :
  handleCertificateResponse t msg req w = (Ok (Some m), w') ->
  exists session peer sessionNonce certs args,
    GetSession (IdentityKey msg) (sessionManager w) = Some session /\
    PeerIdentityKey session = Some peer /\
    SessionNonce session = Some sessionNonce /\
    Certificates msg = Some certs /\
    match onCertificatesReceived t with
    | Some callback => snd (callback peer certs req) = true
    | None => True
    end /\
    sessionManager w' = AddSession (touched true (clock w) session) (sessionManager w) /\
    In (EvCreateSignature args) (trace w') /\
    Wallet.KeyID (Wallet.csEncryptionArgs args) = InitialNonce msg +:+ sessionNonce /\
    MessageType m = CertificateResponse /\
    YourNonce m = PeerNonce session /\
    Signature m <> None.
Proof.
  intros H. unfold handleCertificateResponse in H.
  unfold createNonGeneralAuthSignature, createSignature in H. unfold_monad.
  repeat run_step H.
  all: inversion H; subst; clear H.
  all: cbn [wallet sessionManager logEvent setWallet setRes setSessionManager clock
            trace res SessionNonce PeerNonce PeerIdentityKey MessageType YourNonce
            Signature] in *.
  all: try match goal with
       | Hn : negb _ = false |- _ =>
           apply negb_false_iff in Hn; first [discriminate Hn | subst]
       end.
  all: do 4 eexists.
  all: eexists {| Wallet.csEncryptionArgs := _; Wallet.csData := _;
                  Wallet.DashToDirectlySign := [] |}.
  all: repeat match goal with |- _ /\ _ => split end;
       try eassumption; try reflexivity; try discriminate.
  all: try match goal with
       | E : ?cb ?p ?c ?r = (_, _) |- snd (?cb ?p ?c ?r) = true =>
           rewrite E; reflexivity
       end.
  all: try exact I.
  all: try (unfold touched, UpdateSession;
            repeat match goal with E : _ = Some _ |- _ => rewrite <- E end; reflexivity).
  all: try (rewrite !in_app_iff; cbn [In]; eauto 8; fail).
  all: reflexivity.
Qed.


Lemma Get_withIdentityKeyHeader (k : string) (req : Request) (name : string) :
  lower name <> lower identityKeyHeader ->
  Get (ReqHeader (withIdentityKeyHeader k req)) name = Get (ReqHeader req) name.
Proof.
  intros Hne. unfold withIdentityKeyHeader, Get, Set_. cbn [ReqHeader].
  rewrite lookup_insert_ne by congruence. reflexivity.
Qed.

Lemma Get_identityKeyHeader (k : string) (req : Request) :
  Get (ReqHeader (withIdentityKeyHeader k req)) identityKeyHeader = k.
Proof.
  unfold withIdentityKeyHeader, Get, Set_. cbn [ReqHeader].
  rewrite lookup_insert_eq. reflexivity.
Qed.

Lemma handleGeneralRequest_ext (t : Transport) (m m' : AuthMessage) (w : World) :
  YourNonce m = YourNonce m' -> Signature m = Signature m' ->
  Nonce m = Nonce m' -> Payload m = Payload m' ->
  handleGeneralRequest t m w = handleGeneralRequest t m' w.
Proof.
  intros Hy Hs Hn Hp. unfold handleGeneralRequest. rewrite Hy, Hs, Hn, Hp. reflexivity.
Qed.

Lemma buildAuthMessageFromRequest_identity (k : string) (req : Request) :
  WriteRequestData (withIdentityKeyHeader k req) = WriteRequestData req ->
  match buildAuthMessageFromRequest req,
        buildAuthMessageFromRequest (withIdentityKeyHeader k req) with
  | Ok m, Ok m' =>
      Version m' = Version m /\ YourNonce m' = YourNonce m /\
      Signature m' = Signature m /\ Nonce m' = Nonce m /\ Payload m' = Payload m /\
      IdentityKey m' = k
  | Err e, Err e' => e' = e
  | Panic p, Panic p' => p' = p
  | _, _ => False
  end.
Proof.
  intros Hwr. unfold buildAuthMessageFromRequest. rewrite Hwr.
  rewrite Get_identityKeyHeader.
  rewrite !Get_withIdentityKeyHeader by (vm_compute; discriminate).
  destruct (WriteRequestData req) as [data | e | p]; try reflexivity.
  destruct (negb (String.eqb (Get (ReqHeader req) signatureHeader) ""));
    [destruct (hex_DecodeString (Get (ReqHeader req) signatureHeader)) |];
    cbn [Version YourNonce Signature Nonce Payload IdentityKey]; repeat split.
Qed.

(** X20.  The identity key header of a general request is never compared
    with the session's peer: with another non-empty key in that header the
    verdict, the reply and the world are the same, and the key that ends up
    in the request context is the one the header claims. *)
Theorem identity_key_header_is_not_checked (t : Transport) (req : Request) (k : string)
    (w : World) :
  k <> "" -> Get (ReqHeader req) identityKeyHeader <> "" ->
  WriteRequestData (withIdentityKeyHeader k req) = WriteRequestData req ->
  let out := HandleGeneralRequest t req w in
  let out' := HandleGeneralRequest t (withIdentityKeyHeader k req) w in
  snd out' = snd out /\
  match fst out, fst out' with
  | Ok (r, m), Ok (r', m') =>
      m' = m /\
      (forall x, r = Some x -> exists x', r' = Some x' /\ ctxIdentityKey x' = Some k)
  | Err e, Err e' => e' = e
  | Panic p, Panic p' => p' = p
  | _, _ => False
  end.
Proof.
  intros Hk Hid Hwr out out'. subst out out'. unfold HandleGeneralRequest.
  rewrite (Get_withIdentityKeyHeader k req requestIDHeader) by (vm_compute; discriminate).
  destruct (String.eqb (Get (ReqHeader req) requestIDHeader) "").
  { destruct (allowUnauthenticated t); cbn; [| tauto].
    split; [reflexivity |]. split; [reflexivity |]. intros x Hx; discriminate. }
  unfold bind, liftR, ret.
  assert (Hch : checkHeaders (withIdentityKeyHeader k req) = checkHeaders req).
  { unfold checkHeaders.
    rewrite Get_identityKeyHeader.
    rewrite !Get_withIdentityKeyHeader by (vm_compute; discriminate).
    destruct (String.eqb_spec k ""); [contradiction |].
    destruct (String.eqb_spec (Get (ReqHeader req) identityKeyHeader) "");
      [contradiction | reflexivity]. }
  rewrite Hch. destruct (checkHeaders req); cbn [fst snd]; try tauto.
  pose proof (buildAuthMessageFromRequest_identity k req Hwr) as Hb.
  destruct (buildAuthMessageFromRequest req) as [m | e | p] eqn:Hm;
    destruct (buildAuthMessageFromRequest (withIdentityKeyHeader k req))
      as [m' | e' | p'] eqn:Hm'; try contradiction; cbn [fst snd]; try tauto.
  destruct Hb as (Hv & Hy & Hs & Hn & Hp & Hi).
  destruct (buildAuthMessageFromRequest_fields _ _ Hm) as (Hty & _).
  destruct (buildAuthMessageFromRequest_fields _ _ Hm') as (Hty' & _).
  rewrite (handleIncomingMessage_general _ _ _ _ Hty).
  rewrite (handleIncomingMessage_general _ _ _ _ Hty').
  rewrite Hv. rewrite (handleGeneralRequest_ext t m' m w Hy Hs Hn Hp).
  destruct (negb (String.eqb (Version m) AuthVersion)); cbn [fst snd]; [tauto |].
  destruct (handleGeneralRequest t m w) as [[r | e | p] w1]; cbn [fst snd]; try tauto.
  split; [reflexivity |]. split; [reflexivity |].
  intros x Hx. eexists. split; [reflexivity |]. cbn [setupContext ctxIdentityKey].
  now rewrite Hi.
Qed.


(** X1.  [checkHeaders] accepts a request exactly when the version, identity
    key, nonce, your-nonce and signature headers are all present, the two
    nonces decode as base64 and the signature decodes as hex.  The request
    ID and the message type are not looked at. *)
Theorem checkHeaders_accepts_iff (req : Request) :
  checkHeaders req = Ok tt <->
  (Get (ReqHeader req) versionHeader <> "" /\
   Get (ReqHeader req) identityKeyHeader <> "" /\
   Get (ReqHeader req) nonceHeader <> "" /\
   Get (ReqHeader req) yourNonceHeader <> "" /\
   Get (ReqHeader req) signatureHeader <> "" /\
   snd (base64_DecodeString (Get (ReqHeader req) nonceHeader)) = true /\
   snd (base64_DecodeString (Get (ReqHeader req) yourNonceHeader)) = true /\
   exists b, hex_DecodeString (Get (ReqHeader req) signatureHeader) = Some b).
Proof. exact (checkHeaders_ok_iff req). Qed.



(** X26.  A handshake message that is answered: with no certificates
    callback configured the client is sent 200, the JSON text of the reply
    as body, the JSON content type and the auth headers of the reply, the
    signature header being the hex text of the reply's signature; the next
    handler is not called. *)
Theorem handshake_answer_is_sent
    (t : Transport) (next : NextHandler) (rw : ResponseWriter) (req : Request)
    (w w1 : World) (msg response : AuthMessage) (b : list byte) :
  Method req = MethodPost -> URLPath req = "/.well-known/auth" ->
  parseAuthMessage req = Ok msg ->
  handleIncomingMessage t msg req (setRes (newRecorder rw) w) = (Ok (Some response), w1) ->
  json_Marshal_AuthMessage response = Ok b ->
  onCertificatesReceived t = None ->
  status rw = None ->
  let out := Handler t next rw req w in
  fst out = Ok tt /\
  clientStatus (snd out) = Some StatusOK /\
  clientBody (snd out) = sent rw ++ b /\
  clientHeader (snd out) "Content-Type" = "application/json" /\
  clientHeader (snd out) versionHeader = Version response /\
  clientHeader (snd out) messageTypeHeader = MessageType response /\
  clientHeader (snd out) identityKeyHeader = IdentityKey response /\
  (forall sig, Signature response = Some sig ->
     hex_DecodeString (clientHeader (snd out) signatureHeader) = Some sig) /\
  servedRequests (trace (snd out)) = servedRequests (trace w1).
Proof.
  intros Hm Hp Hparse Hin Hjson Hcb Hfresh out. subst out.
  pose proof (handleIncomingMessage_quiet t msg req (setRes (newRecorder rw) w) Hcb) as Hq.
  rewrite Hin in Hq. cbn [snd res setRes] in Hq.
  set (requestID := if String.eqb (Get (ReqHeader req) requestIDHeader) ""
                    then InitialNonce msg else Get (ReqHeader req) requestIDHeader).
  assert (Hrun : HandleNonGeneralRequest t req (setRes (newRecorder rw) w)
                 = (Ok tt,
                    setRes (Recorder.Write b
                              (Recorder.SetHeader "Content-Type" "application/json"
                                 (fold_left
                                    (fun r kv => Recorder.SetHeader (fst kv) (snd kv) r)
                                    (responseHeaders response requestID)
                                    (newRecorder rw)))) w1)).
  { unfold HandleNonGeneralRequest. unfold bind at 1. unfold liftR. rewrite Hparse.
    unfold bind at 1. rewrite Hin.
    unfold setupHeaders, setupContent, bind, modify, ret. rewrite Hjson.
    cbn [res setRes]. rewrite Hq. reflexivity. }
  unfold Handler. rewrite Hm, Hp.
  change (String.eqb MethodPost MethodPost
          && String.eqb "/.well-known/auth" "/.well-known/auth") with true. cbv iota.
  rewrite Hrun. cbn [fst snd res setRes trace].
  unfold clientStatus, clientBody, clientHeader. cbn [res setRes].
  set (hs := responseHeaders response requestID).
  set (r0 := fold_left _ hs (newRecorder rw)).
  destruct (body_fold_SetHeader hs (newRecorder rw)) as (_ & _ & Hsent & Hst).
  fold r0 in Hsent, Hst. cbn [newRecorder Recorder.ResponseWriter_] in Hsent, Hst.
  rewrite Hfresh in Hst.
  pose proof (Get_fold_SetHeader hs (newRecorder rw)) as Hhdr. fold r0 in Hhdr.
  cbn [newRecorder Recorder.ResponseWriter_] in Hhdr.
  clearbody r0. destruct r0 as [[h st se] sc bd].
  cbn [Recorder.ResponseWriter_ status sent header] in Hsent, Hst, Hhdr. subst st se.
  unfold Recorder.flush, Recorder.Write, Recorder.SetHeader, rwWrite, rwWriteHeader,
    rwSetHeader.
  cbn [Recorder.ResponseWriter_ Recorder.body Recorder.statusCode status sent header].
  assert (Hget : forall k, lower k <> lower "Content-Type" ->
            Get (Set_ h "Content-Type" "application/json") k
            = match List.find (fun kv => String.eqb (lower (fst kv)) (lower k)) (rev hs) with
              | Some kv => snd kv
              | None => Get (header rw) k
              end).
  { intros k Hk. unfold Get at 1, Set_. rewrite lookup_insert_ne by congruence.
    exact (Hhdr k). }
  split; [reflexivity |]. split; [reflexivity |]. split; [reflexivity |].
  split. { unfold Get, Set_. rewrite lookup_insert_eq. reflexivity. }
  rewrite !Hget by (vm_compute; discriminate).
  subst hs. unfold responseHeaders.
  destruct (String.eqb (MessageType response) General);
    destruct (Nonce response) as [n1 |]; destruct (YourNonce response) as [n2 |];
    destruct (Signature response) as [sg |].
  all: cbn [app rev List.find fst snd].
  all: repeat match goal with
       | |- context [String.eqb (lower ?a) (lower ?b)] =>
           let v := eval vm_compute in (String.eqb (lower a) (lower b)) in
           change (String.eqb (lower a) (lower b)) with v
       end; cbv iota.
  all: repeat split; try reflexivity.
  all: try (intros sig E; inversion E; subst; apply hex_round_trip).
  all: intros sig E; discriminate E.
Qed.

End WithCollaborators.
End MoreTransportFacts.

(** ** Runs on the test doubles *)

Module KeyDerivationRuns.
Import Wallet GoStrings KeyDeriver KeyDerivation ToyCurve.

(* the toy curve keeps the contract of the curve library *)
Lemma toy_deriveChildSymmetric : @deriveChildSymmetric toyEC toyDerive.
Proof.
  intros a b n. cbn. unfold toyPublicDeriveChild, toyPrivateDeriveChild, toyPub.
  f_equal.
  assert (Hs : (a * ((b * g) mod q)) mod q = (b * ((a * g) mod q)) mod q).
  { rewrite !Z.mul_mod_idemp_r by (unfold q; lia). f_equal. ring. }
  rewrite Hs.
  rewrite Z.add_mod_idemp_l by (unfold q; lia).
  rewrite Z.mul_mod_idemp_l by (unfold q; lia).
  f_equal. ring.
Qed.

(** Two spellings of one protocol name give one invoice number. *)
Lemma invoiceNumber_injective_witness :
  let kd := @NewKeyDeriver toyEC None in
  let p1 := {| SecurityLevel := 1; ProtocolName := "  Hello World 42 " |} in
  let p2 := {| SecurityLevel := 1; ProtocolName := "hello world 42" |} in
  @computeInvoiceNumber toyEC Fixtures.asciiStrings kd p1 "k" = Ok "1-hello world 42-k" /\
  @computeInvoiceNumber toyEC Fixtures.asciiStrings kd p2 "k" = Ok "1-hello world 42-k" /\
  SecurityLevel p1 = SecurityLevel p2 /\
  HTTP.lower (Fixtures.asciiTrimSpace (ProtocolName p1))
  = HTTP.lower (Fixtures.asciiTrimSpace (ProtocolName p2)) /\
  "k" = "k".
Proof.
  intros kd p1 p2.
  assert (H1 : @computeInvoiceNumber toyEC Fixtures.asciiStrings kd p1 "k"
               = Ok "1-hello world 42-k") by reflexivity.
  assert (H2 : @computeInvoiceNumber toyEC Fixtures.asciiStrings kd p2 "k"
               = Ok "1-hello world 42-k") by reflexivity.
  split; [exact H1 |]. split; [exact H2 |].
  exact (@KeyDerivationFacts.invoiceNumber_injective toyEC Fixtures.asciiStrings
           kd kd p1 p2 "k" "k" _ H1 H2).
Defined.

(** On the toy curve, the key 7 derives for the holder of 3 is the public
    key of the key 3's holder derives with 7 as counterparty. *)
Lemma derivation_symmetric_witness :
  let kdA := {| rootKey := 3 |} in
  let kdB := {| rootKey := 7 |} in
  let key := match @DerivePrivateKey toyEC toyDerive Fixtures.asciiStrings kdB
                     DefaultAuthProtocol "nonce1 nonce2" (otherCounterparty (toyPub 3))
             with Ok k => k | _ => 0 end in
  @deriveChildSymmetric toyEC toyDerive /\
  @DerivePublicKey toyEC toyDerive Fixtures.asciiStrings kdA DefaultAuthProtocol
    "nonce1 nonce2" (otherCounterparty (toyPub 7)) false = Ok (toyPub key).
Proof.
  intros kdA kdB key.
  split; [exact toy_deriveChildSymmetric |].
  apply (proj1 (@KeyDerivationFacts.derivation_symmetric toyEC toyDerive
                  Fixtures.asciiStrings 3 7 DefaultAuthProtocol "nonce1 nonce2"
                  toy_deriveChildSymmetric)).
  reflexivity.
Defined.

(** The invoice number of the key ID the transport signs a reply with. *)
Lemma auth_protocol_invoice_witness :
  HTTP.lower (Fixtures.asciiTrimSpace "auth message signature") = "auth message signature" /\
  @computeInvoiceNumber toyEC Fixtures.asciiStrings (@NewKeyDeriver toyEC None)
    DefaultAuthProtocol "nonce1 nonce2"
  = Ok "2-auth message signature-nonce1 nonce2".
Proof.
  assert (H : HTTP.lower (Fixtures.asciiTrimSpace "auth message signature")
              = "auth message signature") by reflexivity.
  split; [exact H |].
  apply (proj1 (@KeyDerivationFacts.auth_protocol_invoice toyEC Fixtures.asciiStrings
                  (@NewKeyDeriver toyEC None) "nonce1 nonce2" H)).
  vm_compute. split; discriminate.
Defined.

End KeyDerivationRuns.

Module MoreRuns.
Import Encoding GoStrings HTTP TransportTypes SessionManager StateErr.
Import Transport Middleware Fixtures Spec MoreSpec MoreFixtures.

(* the outcome of a run is the pair of its two components *)
Ltac run_outcome :=
  match goal with
  | |- ?out = (_, snd ?out) =>
      rewrite (surjective_pairing out) at 1;
      apply (f_equal (fun x => (x, snd out))); vm_compute; reflexivity
  end.

(** A handshake whose identity key does not parse fails, and leaves the
    session it stored behind. *)
Lemma handleInitialRequest_stores_session_witness :
  let msg := initialRequestOf "not-a-key" ClientNonce in
  let out := handleInitialRequest strictTransport msg initialWorld in
  fst out = Err "failed to create signature, failed to parse identity key, invalid public key" /\
  GetSession SessionNonce0 (sessionManager (snd out))
  = Some (sessionFor strictTransport msg SessionNonce0 0).
Proof.
  intros msg out. split; [vm_compute; reflexivity |].
  assert (Hne : ~ (IdentityKey msg = "" /\ InitialNonce msg = ""))
    by (intros [H _]; discriminate H).
  assert (Hn : Wallet.CreateNonce (wallet initialWorld)
               = (Ok SessionNonce0,
                  {| toIssue := tl DefaultNonces; issued := [SessionNonce0] |}))
    by reflexivity.
  exact (proj2 (MoreTransportFacts.handleInitialRequest_stores_session
                  strictTransport msg initialWorld SessionNonce0 _ Hne Hn)).
Defined.

(** The handshake of the fixtures: the reply echoes the client's nonce. *)
Lemma handleInitialRequest_ok_witness :
  let msg := initialRequestOf ClientIdentityKey ClientNonce in
  let out := handleInitialRequest strictTransport msg initialWorld in
  let m := match fst out with Ok m => m | _ => msg end in
  out = (Ok m, snd out) /\
  exists n key args pk,
    PublicKeyFromString (IdentityKey msg) = Ok key /\
    Wallet.csEncryptionArgs args = baseArgs (InitialNonce msg +:+ n) key /\
    Wallet.csData args =
      list_byte_of_string
        (base64_EncodeToString (list_byte_of_string (InitialNonce msg +:+ n))) /\
    trace (snd out) = trace initialWorld ++ [EvCreateNonce; EvCreateSignature args;
                                             EvGetPublicKey identityKeyArgs] /\
    Version m = AuthVersion /\ MessageType m = InitialResponse /\
    IdentityKey m = ToDERHex (Wallet.PublicKey pk) /\
    InitialNonce m = n /\ YourNonce m = Some (InitialNonce msg) /\
    Nonce m = None /\ Signature m <> None /\
    RequestedCertificates m =
      match certificateRequirements strictTransport with
      | Some reqs => reqs | None => zeroRequestedCertificateSet end /\
    GetSession n (sessionManager (snd out))
      = Some (sessionFor strictTransport msg n (clock initialWorld)) /\
    res (snd out) = res initialWorld.
Proof.
  intros msg out m.
  assert (H : out = (Ok m, snd out)) by run_outcome.
  split; [exact H |].
  exact (MoreTransportFacts.handleInitialRequest_ok strictTransport msg m initialWorld
           (snd out) H).
Defined.

(** A certificateRequest sent to the server is refused as not implemented. *)
Lemma handleIncomingMessage_not_dispatched_witness :
  let msg := {| Version := "0.1"; MessageType := CertificateRequest;
                IdentityKey := ClientIdentityKey; InitialNonce := ClientNonce;
                Nonce := None; YourNonce := None; Signature := None; Payload := None;
                RequestedCertificates := zeroRequestedCertificateSet;
                Certificates := None |} in
  Version msg = AuthVersion /\
  handleIncomingMessage strictTransport msg authRequest initialWorld
  = (Err "not implemented", initialWorld).
Proof.
  intros msg.
  assert (Hv : Version msg = AuthVersion) by reflexivity.
  split; [exact Hv |].
  exact (proj1 (MoreTransportFacts.handleIncomingMessage_not_dispatched
                  strictTransport msg authRequest initialWorld Hv)
           (or_intror eq_refl)).
Defined.

(** A certificateResponse without yourNonce makes the middleware panic. *)
Lemma certificateResponse_without_yourNonce_panics_witness :
  Method authRequest = MethodPost /\ URLPath authRequest = "/.well-known/auth" /\
  exists p, @Handler mockEC mockWallet decodingCodecs strictTransport pingHandler
              newResponseWriter authRequest initialWorld
            = (Panic p, setRes (newRecorder newResponseWriter) initialWorld).
Proof.
  split; [reflexivity |]. split; [reflexivity |].
  exact (@MoreTransportFacts.certificateResponse_without_yourNonce_panics
           mockEC mockWallet decodingCodecs strictTransport pingHandler newResponseWriter
           authRequest certificateResponseWithoutYourNonce initialWorld
           eq_refl eq_refl eq_refl eq_refl eq_refl eq_refl).
Defined.

(** Certificates are required and none was sent: the ping is refused after
    the nonce check alone. *)
Lemma handleGeneralRequest_unauthenticated_session_witness :
  let t := certTransportNoCallback in
  let w := afterHandshake t in
  let msg := generalMessageOf SessionNonce0 in
  handleGeneralRequest t msg w
  = (Err "no certificates provided",
     logEvent (EvVerifyNonce SessionNonce0) (setWallet (wallet w) w)).
Proof.
  intros t w msg.
  assert (Hy : YourNonce msg = Some SessionNonce0) by reflexivity.
  assert (Hn : Wallet.VerifyNonce SessionNonce0 (wallet w) = (Ok true, wallet w))
    by (vm_compute; reflexivity).
  assert (Hs : GetSession SessionNonce0 (sessionManager w)
               = Some (sessionFor t (initialRequestOf ClientIdentityKey ClientNonce)
                         SessionNonce0 0))
    by (vm_compute; reflexivity).
  exact (MoreTransportFacts.handleGeneralRequest_unauthenticated_session
           t msg w SessionNonce0 (wallet w) _ Hy Hn Hs eq_refl eq_refl).
Defined.

(** The reply to the authenticated ping of the fixtures. *)
Lemma handleGeneralRequest_reply_witness :
  let t := strictTransport in
  let w := afterHandshake t in
  let msg := generalMessageOf SessionNonce0 in
  let out := handleGeneralRequest t msg w in
  let m := match fst out with Ok m => m | _ => msg end in
  out = (Ok m, snd out) /\
  exists yourNonce session args nonce ws ws' pk,
    YourNonce msg = Some yourNonce /\
    GetSession yourNonce (sessionManager w) = Some session /\
    trace (snd out) = trace w ++ [EvVerifyNonce yourNonce; EvVerifySignature args;
                                  EvCreateNonce; EvGetPublicKey identityKeyArgs] /\
    Wallet.CreateNonce ws = (Ok nonce, ws') /\
    m = {| Version := AuthVersion; MessageType := General;
           IdentityKey := ToDERHex (Wallet.PublicKey pk);
           InitialNonce := ""; Nonce := Some nonce;
           YourNonce := PeerNonce session;
           Signature := None; Payload := None;
           RequestedCertificates := zeroRequestedCertificateSet;
           Certificates := None |}.
Proof.
  intros t w msg out m.
  assert (H : out = (Ok m, snd out)) by run_outcome.
  split; [exact H |].
  exact (MoreTransportFacts.handleGeneralRequest_reply t msg m w (snd out) H).
Defined.


(** The signed reply to the authenticated ping: the signature header is
    the hex text of the signature stored in the message. *)
Lemma HandleResponse_headers_witness :
  let t := strictTransport in
  let w := afterHandshake t in
  let out1 := HandleGeneralRequest t authenticatedPing
                (setRes (newRecorder newResponseWriter) w) in
  let r := match fst out1 with Ok (Some r, _) => r | _ => authenticatedPing end in
  let msg := match fst out1 with
             | Ok (_, Some m) => m | _ => generalMessageOf SessionNonce0 end in
  let w2 := serveNext pingHandler (Some r) (snd out1) in
  let out3 := HandleResponse t (Some r) (Recorder.body (res w2))
                (Recorder.statusCode (res w2)) (Some msg) w2 in
  let m := match fst out3 with Ok (Some m) => m | _ => msg end in
  allowUnauthenticated t = false /\
  out3 = (Ok (Some m), snd out3) /\
  exists sig, Signature m = Some sig /\
    hex_DecodeString (Get (header (Recorder.ResponseWriter_ (res (snd out3))))
                        signatureHeader) = Some sig.
Proof.
  intros t w out1 r msg w2 out3 m.
  assert (H : out3 = (Ok (Some m), snd out3)) by run_outcome.
  split; [reflexivity |]. split; [exact H |].
  destruct (MoreTransportFacts.HandleResponse_headers t r (Recorder.body (res w2))
              (Recorder.statusCode (res w2)) msg m w2 (snd out3) eq_refl H)
    as (sig & H1 & H2 & _).
  exists sig. split; [exact H1 | exact H2].
Defined.

(** A ping without any auth header, unauthenticated requests not allowed. *)
Lemma rejected_request_answered_401_without_body_witness :
  let t := strictTransport in
  let w := afterHandshake t in
  let req := pingRequest ∅ in
  let out := Handler t pingHandler newResponseWriter req w in
  isGeneral req /\
  HandleGeneralRequest t req (setRes (newRecorder newResponseWriter) w)
    = (Err "missing request ID", setRes (newRecorder newResponseWriter) w) /\
  status newResponseWriter = None /\
  fst out = Ok tt /\
  clientStatus (snd out) = Some StatusUnauthorized /\
  clientBody (snd out) = sent newResponseWriter /\
  Recorder.body (res (snd out))
    = list_byte_of_string ("missing request ID" +:+ String (ascii_of_nat 10) EmptyString) /\
  servedRequests (trace (snd out)) = servedRequests (trace w).
Proof.
  intros t w req out.
  assert (H1 : isGeneral req) by reflexivity.
  assert (H2 : HandleGeneralRequest t req (setRes (newRecorder newResponseWriter) w)
               = (Err "missing request ID", setRes (newRecorder newResponseWriter) w))
    by reflexivity.
  assert (H3 : status newResponseWriter = None) by reflexivity.
  split; [exact H1 |]. split; [exact H2 |]. split; [exact H3 |].
  exact (MoreTransportFacts.rejected_request_answered_401_without_body
           t pingHandler newResponseWriter req w _ _ H1 H2 H3).
Defined.


(** A POST to /.well-known/auth whose body does not decode is answered
    200 with nothing else. *)
Lemma handshake_errors_are_not_reported_witness :
  let t := strictTransport in
  let out := Handler t pingHandler newResponseWriter authRequest initialWorld in
  HandleNonGeneralRequest t authRequest (setRes (newRecorder newResponseWriter) initialWorld)
    = (Err "failed to decode request body",
       setRes (newRecorder newResponseWriter) initialWorld) /\
  fst out = Ok tt /\
  clientStatus (snd out) = Some StatusOK /\
  clientBody (snd out) = sent newResponseWriter /\
  header (Recorder.ResponseWriter_ (res (snd out))) = header newResponseWriter.
Proof.
  intros t out.
  assert (H : HandleNonGeneralRequest t authRequest
                (setRes (newRecorder newResponseWriter) initialWorld)
              = (Err "failed to decode request body",
                 setRes (newRecorder newResponseWriter) initialWorld)) by reflexivity.
  split; [exact H |].
  exact (MoreTransportFacts.handshake_errors_are_not_reported
           t pingHandler newResponseWriter authRequest initialWorld _ _
           eq_refl eq_refl H eq_refl eq_refl).
Defined.

(** The sessions after the handshake of the fixtures hold no nil pointer. *)
Lemma sessions_hold_no_nil_pointer_witness :
  sessionsWellFormed (sessionManager initialWorld) /\
  sessionsWellFormed
    (sessionManager
       (performAll strictTransport
          [ CallHandleIncomingMessage (initialRequestOf ClientIdentityKey ClientNonce)
              authRequest;
            CallHandler pingHandler newResponseWriter authenticatedPing ]
          initialWorld)).
Proof.
  assert (H : sessionsWellFormed (sessionManager initialWorld)).
  { intros s [[k Hk] | [k Hk]]; cbn in Hk; rewrite lookup_empty in Hk; discriminate Hk. }
  split; [exact H |].
  exact (MoreTransportFacts.sessions_hold_no_nil_pointer strictTransport _ initialWorld H).
Defined.


(** The age callback is given an empty certificate list: it answers 403
    and does not continue; the session stays as it was. *)
Lemma handleCertificateResponse_declined_witness :
  let t := ageTransport in
  let w := afterHandshake t in
  let msg := certificateResponseOf SessionNonce0 in
  let out := handleCertificateResponse t msg authRequest w in
  out = (Ok None, snd out) /\
  sessionManager (snd out) = sessionManager w /\
  Recorder.statusCode (res (snd out)) = 403.
Proof.
  intros t w msg out.
  assert (H : out = (Ok None, snd out)) by run_outcome.
  split; [exact H |].
  destruct (MoreTransportFacts.handleCertificateResponse_declined t msg authRequest w
              (snd out) H)
    as (cb & certs & session & peer & ops & y & args & Hcb & Hc & Hs & Hp & Hcall & Hsm
        & Hres & Htr).
  split; [exact Hsm |]. vm_compute. reflexivity.
Defined.

(** No callback is configured: the certificateResponse authenticates the
    session. *)
Lemma handleCertificateResponse_authenticates_witness :
  let t := certTransportNoCallback in
  let w := afterHandshake t in
  let msg := certificateResponseOf SessionNonce0 in
  let out := handleCertificateResponse t msg authRequest w in
  let m := match fst out with Ok (Some m) => m | _ => msg end in
  out = (Ok (Some m), snd out) /\
  exists session,
    GetSession (IdentityKey msg) (sessionManager w) = Some session /\
    sessionManager (snd out)
      = AddSession (touched true (clock w) session) (sessionManager w) /\
    YourNonce m = PeerNonce session.
Proof.
  intros t w msg out m.
  assert (H : out = (Ok (Some m), snd out)) by run_outcome.
  split; [exact H |].
  destruct (MoreTransportFacts.handleCertificateResponse_authenticates t msg m authRequest
              w (snd out) H)
    as (session & peer & sn & certs & args & Hs & _ & _ & _ & _ & Hsm & _ & _ & _ & Hy & _).
  exists session. split; [exact Hs |]. split; [exact Hsm | exact Hy].
Defined.

(** The ping of the fixtures with another identity key in its header is
    accepted all the same. *)
Lemma identity_key_header_is_not_checked_witness :
  let t := strictTransport in
  let w := afterHandshake t in
  let out := HandleGeneralRequest t authenticatedPing w in
  let out' := HandleGeneralRequest t
                (withIdentityKeyHeader OtherIdentityKey authenticatedPing) w in
  OtherIdentityKey <> "" /\
  Get (ReqHeader authenticatedPing) identityKeyHeader = ClientIdentityKey /\
  snd out' = snd out /\
  match fst out, fst out' with
  | Ok (r, m), Ok (r', m') =>
      m' = m /\
      (forall x, r = Some x ->
         exists x', r' = Some x' /\ ctxIdentityKey x' = Some OtherIdentityKey)
  | Err e, Err e' => e' = e
  | Panic p, Panic p' => p' = p
  | _, _ => False
  end.
Proof.
  intros t w out out'.
  assert (H1 : OtherIdentityKey <> "") by discriminate.
  assert (H2 : Get (ReqHeader authenticatedPing) identityKeyHeader = ClientIdentityKey)
    by reflexivity.
  assert (H2' : Get (ReqHeader authenticatedPing) identityKeyHeader <> "")
    by (rewrite H2; discriminate).
  split; [exact H1 |]. split; [exact H2 |].
  exact (MoreTransportFacts.identity_key_header_is_not_checked t authenticatedPing
           OtherIdentityKey w H1 H2' eq_refl).
Defined.

(** The handshake of the fixtures through the middleware: the client is
    sent 200 and the JSON text of the initialResponse. *)
Lemma handshake_answer_is_sent_witness :
  let t := strictTransport in
  let msg := initialRequestOf ClientIdentityKey ClientNonce in
  let out1 := @handleIncomingMessage mockEC mockWallet handshakeCodecs t msg authRequest
                (setRes (newRecorder newResponseWriter) initialWorld) in
  let response := match fst out1 with Ok (Some r) => r | _ => msg end in
  let out := @Handler mockEC mockWallet handshakeCodecs t pingHandler newResponseWriter
               authRequest initialWorld in
  out1 = (Ok (Some response), snd out1) /\
  fst out = Ok tt /\
  clientStatus (snd out) = Some StatusOK /\
  clientBody (snd out) = list_byte_of_string "{initialResponse}" /\
  clientHeader (snd out) "Content-Type" = "application/json".
Proof.
  intros t msg out1 response out.
  assert (H : out1 = (Ok (Some response), snd out1)).
  { rewrite (surjective_pairing out1) at 1.
    apply (f_equal (fun x => (x, snd out1))). vm_compute. reflexivity. }
  split; [exact H |].
  destruct (@MoreTransportFacts.handshake_answer_is_sent mockEC mockWallet handshakeCodecs
              t pingHandler newResponseWriter authRequest initialWorld (snd out1) msg
              response (list_byte_of_string "{initialResponse}")
              eq_refl eq_refl eq_refl H eq_refl eq_refl eq_refl)
    as (H1 & H2 & H3 & H4 & _).
  split; [exact H1 |]. split; [exact H2 |]. split; [exact H3 | exact H4].
Defined.

End MoreRuns.
